(** * A shallow embedding of the pipe functions of the SQL connector
      (meerschaum/connectors/sql/_pipes.py) and proofs of their behaviour. *)

From Stdlib Require Import String List ZArith Bool Ascii Lia.
Import ListNotations.
Open Scope string_scope.
Set Warnings "-register-all".

(** ** Python dictionaries: insertion-ordered association lists. *)
Module PyDict.
Fixpoint get {A} (k : string) (d : list (string * A)) : option A :=
  match d with
  | [] => None
  | (k', v) :: d' => if String.eqb k k' then Some v else get k d'
  end.

Definition mem {A} (k : string) (d : list (string * A)) : bool :=
  match get k d with Some _ => true | None => false end.

(** [d[k] = v]: an existing key keeps its position. *)
Fixpoint set {A} (k : string) (v : A) (d : list (string * A)) : list (string * A) :=
  match d with
  | [] => [(k, v)]
  | (k', v') :: d' => if String.eqb k k' then (k, v) :: d' else (k', v') :: set k v d'
  end.

(** [d.update(e)] *)
Definition update {A} (d e : list (string * A)) : list (string * A) :=
  fold_left (fun acc kv => set (fst kv) (snd kv) acc) e d.

Definition keys {A} (d : list (string * A)) : list string := map fst d.
Definition values {A} (d : list (string * A)) : list A := map snd d.
End PyDict.

(** ** JSON values (the [parameters] column). *)
Inductive json : Type :=
| JStr (s : string)
| JNum (z : Z)
| JList (l : list json)
| JObj (kvs : list (string * json)).

Definition as_obj (j : json) : list (string * json) :=
  match j with JObj kvs => kvs | _ => [] end.

(** ** The dialect catalog: helpers of [meerschaum.utils.sql] the pipe
    functions call, taken as parameters (any implementation). *)
Record Catalog : Type := {
  sql_item_name : string -> string -> string;          (* item, flavor *)
  hypertable_queries : string -> option (string -> string); (* flavor -> template *)
  get_db_type : string -> string -> string;             (* pandas type, flavor *)
  get_distinct_col_count : string -> string -> string;  (* column, query (rendered) *)
  get_update_queries : string -> string -> list string -> list string;
  space_partition : bool                                (* system:experimental:space *)
}.

(** ** Pipes. *)
Record Pipe : Type := {
  connector_keys : string;
  metric_key : string;
  location_key : option string;
  target : string;
  columns : list (string * string);   (* role -> column *)
  indices : list (string * string);   (* role -> index name (pipe.get_indices()) *)
  parameters : json                    (* the in-memory parameters *)
}.

(** ** The store: the registry of pipes and the tables with their columns. *)
Record RegRow : Type := {
  pipe_id : nat;
  r_connector_keys : string;
  r_metric_key : string;
  r_location_key : option string;
  r_parameters : json
}.

Record DB : Type := {
  db_registry : list RegRow;
  db_tables : list (string * list (string * string))  (* table -> column -> type *)
}.

Definition table_exists (name : string) (db : DB) : bool :=
  PyDict.mem name db.(db_tables).

Definition pipe_exists (p : Pipe) (db : DB) : bool := table_exists p.(target) db.

Definition opt_eqb (a b : option string) : bool :=
  match a, b with
  | None, None => true
  | Some x, Some y => String.eqb x y
  | _, _ => false
  end.

Definition row_has_keys (ck mk : string) (lk : option string) (r : RegRow) : bool :=
  String.eqb r.(r_connector_keys) ck && String.eqb r.(r_metric_key) mk
  && opt_eqb r.(r_location_key) lk.

(** [get_pipe_id]: the id of the registry row with the pipe's keys. *)
Definition get_pipe_id (p : Pipe) (db : DB) : option nat :=
  match find (row_has_keys p.(connector_keys) p.(metric_key) p.(location_key)) db.(db_registry) with
  | Some r => Some r.(pipe_id)
  | None => None
  end.

(** ** The connector: its flavor and the answers of the database. *)
Record Conn : Type := {
  flavor : string;
  value : string -> option string;   (* self.value(query) *)
  exec_ok : string -> bool           (* whether one statement succeeds *)
}.

(** Python's [f"{x}"] of an optional name. *)
Definition py_str (o : option string) : string :=
  match o with Some s => s | None => "None" end.

Definition nl : string := String (ascii_of_nat 10) EmptyString.
Definition dquote : string := String (ascii_of_nat 34) EmptyString.

(** ** Index planner *)
Section IndexPlanner.
Variable cat : Catalog.
Variable conn : Conn.
Variable db : DB.

Let q (x : string) : string := cat.(sql_item_name) x conn.(flavor).

(** [get_create_index_queries]: column -> statements.  The dictionary is
    keyed by the physical column, so a later entry for the same column
    overwrites an earlier one in place.  [pipe.columns[ix_key]] raises a
    [KeyError] for an index role without a column: [None].  For citus the
    source stores the id entry as the nested list [[q1, q2]], which
    [create_indices] hands to [exec_queries] without flattening it; the model
    keeps the two statements flat, so what is proved below about running the
    plan of [create_indices] is stated for the other flavors only. *)
Definition get_create_index_queries (pipe : Pipe) : option (list (string * list string)) :=
  let indices := pipe.(indices) in
  let _datetime := PyDict.get "datetime" pipe.(columns) in
  let _datetime_name := option_map q _datetime in
  let _datetime_index_name := option_map q (PyDict.get "datetime" indices) in
  let _id := PyDict.get "id" pipe.(columns) in
  let _id_name := option_map q _id in
  let _id_index_name := option_map q (PyDict.get "id" indices) in
  let _pipe_name := q pipe.(target) in
  let space := cat.(space_partition) in
  let iq0 : list (string * list string) :=
    match _datetime with
    | None => []
    | Some dt =>
        let dt_query :=
          if String.eqb conn.(flavor) "timescaledb" then
            "SELECT create_hypertable('" ++ _pipe_name ++ "', " ++ "'" ++ dt ++ "', "
            ++ (match _id with
                | Some i => if space then
                              "'" ++ i ++ "', "
                              ++ cat.(get_distinct_col_count) i
                                   ("SELECT " ++ py_str _id_name ++ " FROM " ++ _pipe_name)
                              ++ ", "
                            else ""
                | None => ""
                end)
            ++ "migrate_data => true);"
          else
            "CREATE INDEX " ++ py_str _datetime_index_name ++ " "
            ++ "ON " ++ _pipe_name ++ " (" ++ py_str _datetime_name ++ ")" in
        PyDict.set dt [dt_query] []
    end in
  let iq1 :=
    match _id, _id_name with
    | Some i, Some iname =>
        let id_query : option (list string) :=
          if String.eqb conn.(flavor) "timescaledb" then
            if space then None
            else Some ["CREATE INDEX " ++ py_str _id_index_name ++ " ON " ++ _pipe_name
                       ++ " (" ++ iname ++ ")"]
          else if String.eqb conn.(flavor) "citus" then
            Some ["CREATE INDEX " ++ py_str _id_index_name ++ " " ++ "ON " ++ _pipe_name
                  ++ " (" ++ iname ++ ");";
                  "SELECT create_distributed_table('" ++ _pipe_name ++ "', '" ++ i ++ "');"]
          else
            Some ["CREATE INDEX " ++ py_str _id_index_name ++ " ON " ++ _pipe_name
                  ++ " (" ++ iname ++ ")"] in
        match id_query with
        | Some qs => PyDict.set i qs iq0
        | None => iq0
        end
    | _, _ => iq0
    end in
  let other_indices :=
    filter (fun kv => negb (String.eqb (fst kv) "datetime" || String.eqb (fst kv) "id")) indices in
  fold_left
    (fun acc kv =>
       match acc with
       | None => None
       | Some iq =>
           let ix_name := q (snd kv) in
           match PyDict.get (fst kv) pipe.(columns) with
           | None => None
           | Some col =>
               Some (PyDict.set col ["CREATE INDEX " ++ ix_name ++ " ON " ++ _pipe_name
                                     ++ " (" ++ q col ++ ")"] iq)
           end
       end)
    other_indices (Some iq1).

(** The hypertable test of [get_drop_index_queries]. *)
Definition drop_is_hypertable (pipe : Pipe) : bool :=
  match cat.(hypertable_queries) conn.(flavor) with
  | None => false
  | Some tmpl =>
      match conn.(value) (tmpl (q pipe.(target))) with Some _ => true | None => false end
  end.

Definition temp_migration_table (pipe : Pipe) : string :=
  "_" ++ pipe.(target) ++ "_temp_migration".

(** The full-table rebuild of a hypertable. *)
Definition nuke_queries (pipe : Pipe) : list string :=
  let temp_table_name := q (temp_migration_table pipe) in
  let pipe_name := q pipe.(target) in
  (if table_exists (temp_migration_table pipe) db
   then ["DROP TABLE " ++ temp_table_name] else [])
  ++ ["SELECT * INTO " ++ temp_table_name ++ " FROM " ++ pipe_name;
      "DROP TABLE " ++ pipe_name;
      "ALTER TABLE " ++ temp_table_name ++ " RENAME TO " ++ pipe_name].

(** [for ix_key in ('datetime', 'id'): if ix_key in indices and not nuked: ...] *)
Fixpoint nuke_loop (indices : list (string * string)) (nq : list string)
    (ix_keys : list string) (nuked : bool) (dq : list (string * list string))
    : list (string * list string) :=
  match ix_keys with
  | [] => dq
  | k :: ks =>
      if PyDict.mem k indices && negb nuked
      then nuke_loop indices nq ks true (PyDict.set k nq dq)
      else nuke_loop indices nq ks nuked dq
  end.

Definition plain_drop (ix_unquoted : string) : list string :=
  ["DROP INDEX " ++ q ix_unquoted].

(** [get_drop_index_queries]: role -> statements. *)
Definition get_drop_index_queries (pipe : Pipe) : list (string * list string) :=
  if negb (pipe_exists pipe db) then [] else
  let indices := pipe.(indices) in
  let dq0 :=
    if drop_is_hypertable pipe
    then nuke_loop indices (nuke_queries pipe) ["datetime"; "id"] false []
    else [] in
  PyDict.update dq0
    (map (fun kv => (fst kv, plain_drop (snd kv)))
         (filter (fun kv => negb (PyDict.mem (fst kv) dq0)) indices)).

End IndexPlanner.

(** ** Schema reconciler *)

(** A dataframe: its dtypes (column -> pandas type) and its rows. *)
Record Frame : Type := {
  fr_dtypes : list (string * string);
  fr_rows : list (list (string * Z))
}.

(** [df.empty]: no rows or no columns. *)
Definition frame_empty (f : Frame) : bool :=
  match f.(fr_rows), f.(fr_dtypes) with
  | [], _ | _, [] => true
  | _, _ => false
  end.

(** [query[:-1]] *)
Definition drop_last (s : string) : string :=
  substring 0 (String.length s - 1) s.

Definition add_columns_statement (cat : Catalog) (conn : Conn) (pipe : Pipe)
    (new_cols_types : list (string * string)) : string :=
  let q x := cat.(sql_item_name) x conn.(flavor) in
  drop_last
    (fold_left (fun query ct => query ++ nl ++ "ADD " ++ q (fst ct) ++ " " ++ snd ct ++ ",")
       new_cols_types ("ALTER TABLE " ++ q pipe.(target))).

(** [set(df_cols_types) - set(db_cols_types)]: the iteration order of a
    Python set of strings is not fixed; it is taken here as the dataframe's
    column order. *)
Definition new_columns (df_cols_types db_cols_types : list (string * string)) : list string :=
  filter (fun c => negb (PyDict.mem c db_cols_types)) (PyDict.keys df_cols_types).

Definition table_columns (db : DB) (name : string) : list (string * string) :=
  match PyDict.get name db.(db_tables) with Some cs => cs | None => [] end.

(** [{col: get_db_type(df_cols_types[col], flavor) for col in new_cols}] *)
Definition new_columns_types (cat : Catalog) (conn : Conn) (df_cols_types : list (string * string))
    (new_cols : list string) : list (string * string) :=
  map (fun col => (col, cat.(get_db_type)
                          (match PyDict.get col df_cols_types with Some t => t | None => "" end)
                          conn.(flavor))) new_cols.

(** [get_add_columns_queries]; [None] when [get_create_index_queries] raises. *)
Definition get_add_columns_queries (cat : Catalog) (conn : Conn) (db : DB) (pipe : Pipe)
    (df : Frame) : option (list string) :=
  if negb (pipe_exists pipe db) then Some [] else
  let df_cols_types := df.(fr_dtypes) in
  let db_cols_types := table_columns db pipe.(target) in
  let new_cols := new_columns df_cols_types db_cols_types in
  match new_cols with
  | [] => Some []
  | _ =>
      let new_cols_types := new_columns_types cat conn df_cols_types new_cols in
      let query := add_columns_statement cat conn pipe new_cols_types in
      if negb (String.eqb conn.(flavor) "duckdb") then Some [query] else
      let drop_index_queries := concat (PyDict.values (get_drop_index_queries cat conn db pipe)) in
      match get_create_index_queries cat conn pipe with
      | None => None
      | Some cq => Some (drop_index_queries ++ [query] ++ concat (PyDict.values cq))%list
      end
  end.

(** ** Effects *)
Inductive Event : Type :=
| EvRegister (id : nat)
| EvExec (stmt : string)             (* a statement sent to the database *)
| EvWarn (msg : string)              (* a logged warning or failure message *)
| EvFilterExisting                   (* the existing-row fetch of the delta engine *)
| EvToSql (name : string) (df : Frame)
| EvCreateIndices.

Inductive Outcome : Type :=
| Returned (r : bool * string)
| Raised.

(** Modelled from the spec: [SQLConnector.exec_queries] (its module is not
    under src/): the statements are executed in sequence, one result per
    executed statement ([false] for a failure, whose error [exec] prints),
    stopping after the first failure when [break_on_error] is set. *)
Definition exec_failure_log (silent : bool) (s : string) : list Event :=
  if silent then [] else [EvWarn ("Failed to execute query:" ++ nl ++ s)].

Fixpoint exec_queries (conn : Conn) (qs : list string) (break_on_error silent : bool)
    : list bool * list Event :=
  match qs with
  | [] => ([], [])
  | s :: qs' =>
      if conn.(exec_ok) s then
        let '(rs, evs) := exec_queries conn qs' break_on_error silent in
        (true :: rs, EvExec s :: evs)
      else if break_on_error then
        ([false], EvExec s :: exec_failure_log silent s)
      else
        let '(rs, evs) := exec_queries conn qs' break_on_error silent in
        (false :: rs, ((EvExec s :: exec_failure_log silent s) ++ evs)%list)
  end.

Definition show_pipe (p : Pipe) : string :=
  "Pipe('" ++ p.(connector_keys) ++ "', '" ++ p.(metric_key) ++ "', '"
  ++ py_str p.(location_key) ++ "')".

Definition remove_table (name : string) (db : DB) : DB :=
  {| db_registry := db.(db_registry);
     db_tables := filter (fun t => negb (String.eqb (fst t) name)) db.(db_tables) |}.

(** [drop_pipe]: [self.exec(..., silent=True)], so failures are not logged. *)
Definition drop_pipe (cat : Catalog) (conn : Conn) (db : DB) (pipe : Pipe)
    : (bool * string) * DB * list Event :=
  let q x := cat.(sql_item_name) x conn.(flavor) in
  let target := pipe.(target) in
  let temp_target := "_" ++ target in
  let '(success1, db1, ev1) :=
    if table_exists target db then
      let stmt := "DROP TABLE " ++ q target in
      let ok := conn.(exec_ok) stmt in
      (ok, (if ok then remove_table target db else db), [EvExec stmt])
    else (true, db, []) in
  let '(success2, db2, ev2) :=
    if table_exists temp_target db1 then
      (* [success and self.exec(...)]: the second drop runs only after a success *)
      if success1 then
        let stmt := "DROP TABLE " ++ q temp_target in
        let ok := conn.(exec_ok) stmt in
        (ok, (if ok then remove_table temp_target db1 else db1), [EvExec stmt])
      else (false, db1, [])
    else (success1, db1, []) in
  ((success2, if success2 then "Success" else "Failed to drop " ++ show_pipe pipe ++ "."),
   db2, (ev1 ++ ev2)%list).

(** ** Registration and editing *)

Fixpoint max_id (rs : list RegRow) : nat :=
  match rs with [] => 0 | r :: rs' => Nat.max r.(pipe_id) (max_id rs') end.

(** [register_pipe]; [insert_ok] is whether [self.exec(insert)] returned a result. *)
Definition register_pipe (insert_ok : bool) (db : DB) (pipe : Pipe)
    : (bool * string) * DB * list Event :=
  match get_pipe_id pipe db with
  | Some _ => ((false, show_pipe pipe ++ " is already registered."), db, [])
  | None =>
      if insert_ok then
        let id := S (max_id db.(db_registry)) in
        let row := {| pipe_id := id; r_connector_keys := pipe.(connector_keys);
                      r_metric_key := pipe.(metric_key); r_location_key := pipe.(location_key);
                      r_parameters := pipe.(parameters) |} in
        ((true, "Successfully registered " ++ show_pipe pipe ++ "."),
         {| db_registry := (db.(db_registry) ++ [row])%list; db_tables := db.(db_tables) |},
         [EvRegister id])
      else ((false, "Failed to register " ++ show_pipe pipe ++ "."), db, [])
  end.

(** [get_pipe_attributes(pipe)['parameters']]: the stored parameters of the
    registry row whose id is the pipe's id ([{}] when unregistered). *)
Definition fetch_parameters (db : DB) (pipe : Pipe) : json :=
  match get_pipe_id pipe db with
  | None => JObj []
  | Some id =>
      match find (fun r => Nat.eqb r.(pipe_id) id) db.(db_registry) with
      | Some r => r.(r_parameters)
      | None => JObj []
      end
  end.

(** Modelled from the spec: [apply_patch_to_config] (meerschaum.config._patch,
    not under src/), the deep merge of a patch onto a configuration: an object
    value of the patch is merged into the configuration's value under the same
    key (an absent or non-object value counting as [{}]), any other value of
    the patch replaces it. *)
Fixpoint patch_value (base : json) (v : json) : json :=
  match v with
  | JObj pkvs =>
      JObj ((fix go (b : list (string * json)) (l : list (string * json)) :=
               match l with
               | [] => b
               | (k, v') :: l' =>
                   go (PyDict.set k (patch_value
                                       (match PyDict.get k b with Some x => x | None => JObj [] end)
                                       v') b) l'
               end) (as_obj base) pkvs)
  | _ => v
  end.

Definition apply_patch_to_config (config patch : json) : json :=
  match patch with
  | JObj _ => patch_value (JObj (as_obj config)) patch
  | _ => config
  end.

Definition set_parameters (id : nat) (params : json) (db : DB) : DB :=
  {| db_registry :=
       map (fun r => if Nat.eqb r.(pipe_id) id
                     then {| pipe_id := r.(pipe_id); r_connector_keys := r.(r_connector_keys);
                             r_metric_key := r.(r_metric_key);
                             r_location_key := r.(r_location_key); r_parameters := params |}
                     else r) db.(db_registry);
     db_tables := db.(db_tables) |}.

(** [edit_pipe]; [pipe.id] is the registry lookup of the pipe's keys, the
    fresh [Pipe(...).parameters] is [fetch_parameters], and [update_ok] is
    whether [self.exec(update)] returned a result. *)
Definition edit_pipe (update_ok : bool) (db : DB) (pipe : Pipe) (patch : bool)
    : (bool * string) * DB :=
  match get_pipe_id pipe db with
  | None => ((false, show_pipe pipe ++ " is not registered and cannot be edited."), db)
  | Some id =>
      let params :=
        if patch then apply_patch_to_config (fetch_parameters db pipe) pipe.(parameters)
        else pipe.(parameters) in
      if update_ok
      then ((true, "Successfully edited " ++ show_pipe pipe ++ "."), set_parameters id params db)
      else ((false, "Failed to edit " ++ show_pipe pipe ++ "."), db)
  end.

(** ** Sync orchestrator *)

(** Collaborators of [sync_pipe] outside this module. *)
Record SyncEnv : Type := {
  filter_existing : Frame -> Frame * option Frame * Frame; (* pipe.filter_existing *)
  to_sql : string -> Frame -> bool * string;  (* self.to_sql(..., as_dict=True): success, msg *)
  insert_ok : bool                              (* the registry insert of register_pipe *)
}.

Fixpoint digits (fuel n : nat) (acc : string) : string :=
  match fuel with
  | 0 => acc
  | S f =>
      let acc' := String (ascii_of_nat (48 + n mod 10)) acc in
      if Nat.ltb n 10 then acc' else digits f (n / 10) acc'
  end.

Definition nat_to_string (n : nat) : string := digits (S n) n "".

(** A successful [to_sql] creates a missing table with the frame's columns. *)
Definition to_sql_effect (name : string) (df : Frame) (ok : bool) (db : DB) : DB :=
  if ok && negb (table_exists name db)
  then {| db_registry := db.(db_registry);
          db_tables := (db.(db_tables) ++ [(name, df.(fr_dtypes))])%list |}
  else db.

(** [create_indices] (with [indices=None]); [None] when the planner raises. *)
Definition create_indices (cat : Catalog) (conn : Conn) (pipe : Pipe)
    : option (bool * list Event) :=
  match pipe.(columns) with
  | [] => Some (false, [EvWarn ("Unable to create indices for " ++ show_pipe pipe
                                ++ " without columns.")])
  | _ =>
      match get_create_index_queries cat conn pipe with
      | None => None
      | Some ix_queries =>
          Some (fold_left
                  (fun acc ixq =>
                     let '(rs, evs) := exec_queries conn (snd ixq) false true in
                     (fst acc && forallb (fun b => b) rs, (snd acc ++ evs)%list))
                  ix_queries (true, []))
      end
  end.

(** The delta step: [pipe.filter_existing(df)] if [check_existing] else
    [(df, None, df)]. *)
Definition partition (env : SyncEnv) (check_existing : bool) (df : Frame)
    : Frame * option Frame * Frame :=
  if check_existing then env.(filter_existing) df else (df, None, df).

Definition update_queries (cat : Catalog) (pipe : Pipe) : list string :=
  let join_cols := map snd (filter (fun kv => negb (String.eqb (fst kv) "value")) pipe.(columns)) in
  cat.(get_update_queries) pipe.(target) ("_" ++ pipe.(target)) join_cols.

Definition temp_pipe (pipe : Pipe) : Pipe :=
  {| connector_keys := pipe.(connector_keys) ++ "_"; metric_key := pipe.(metric_key);
     location_key := pipe.(location_key); target := "_" ++ pipe.(target);
     columns := pipe.(columns); indices := []; parameters := JObj [] |}.

Definition frame_len (o : option Frame) : nat :=
  match o with Some f => List.length f.(fr_rows) | None => 0 end.

(** Steps 5-7: insert the unseen rows, index a new table, report. *)
Definition insert_unseen (env : SyncEnv) (cat : Catalog) (conn : Conn) (db : DB) (pipe : Pipe)
    (unseen : Frame) (update : option Frame) (is_new : bool) (evs : list Event)
    : Outcome * DB * list Event :=
  let stats := env.(to_sql) pipe.(target) unseen in
  let db1 := to_sql_effect pipe.(target) unseen (fst stats) db in
  let evs1 := (evs ++ [EvToSql pipe.(target) unseen])%list in
  match (if is_new then create_indices cat conn pipe else Some (true, [])) with
  | None => (Raised, db1, evs1)
  | Some (_, cevs) =>
      let evs2 := (evs1 ++ (if is_new then EvCreateIndices :: cevs else []))%list in
      if negb (fst stats) then (Returned (false, snd stats), db1, evs2)
      else (Returned (true, "Inserted " ++ nat_to_string (List.length unseen.(fr_rows))
                            ++ ", updated " ++ nat_to_string (frame_len update) ++ " rows."),
            db1, evs2)
  end.

(** Steps 3-7 of [sync_pipe], after registration and reconciliation. *)
Definition sync_tail (env : SyncEnv) (cat : Catalog) (conn : Conn) (db : DB) (pipe : Pipe)
    (df : Frame) (check_existing is_new : bool) (evs : list Event)
    : Outcome * DB * list Event :=
  let '(unseen, update, _delta) := partition env check_existing df in
  let evs1 := if check_existing then (evs ++ [EvFilterExisting])%list else evs in
  match update with
  | Some u =>
      if negb (frame_empty u) then
        let temp_target := "_" ++ pipe.(target) in
        let stats := env.(to_sql) temp_target u in
        let db1 := to_sql_effect temp_target u (fst stats) db in
        let queries := update_queries cat pipe in
        let '(rs, qevs) := exec_queries conn queries true false in
        let evs2 := (evs1 ++ [EvToSql temp_target u] ++ qevs)%list in
        if negb (forallb (fun b => b) rs) then
          (Returned (false, "Failed to apply update to " ++ show_pipe pipe ++ "."), db1, evs2)
        else
          let '(_, db2, devs) := drop_pipe cat conn db1 (temp_pipe pipe) in
          insert_unseen env cat conn db2 pipe unseen update is_new (evs2 ++ devs)%list
      else insert_unseen env cat conn db pipe unseen update is_new evs1
  | None => insert_unseen env cat conn db pipe unseen update is_new evs1
  end.

(** Step 1: [if not pipe.get_id(): pipe.register()]; [not] treats the id 0
    as unregistered, as Python does. *)
Definition sync_register (env : SyncEnv) (db : DB) (pipe : Pipe) : (bool * string) * DB * list Event :=
  match get_pipe_id pipe db with
  | Some (S _) => ((true, ""), db, [])
  | _ => register_pipe env.(insert_ok) db pipe
  end.

(** [sync_pipe]; [df = None] is the Python [None]. *)
Definition sync_pipe (env : SyncEnv) (cat : Catalog) (conn : Conn) (db : DB) (pipe : Pipe)
    (df : option Frame) (check_existing : bool) : Outcome * DB * list Event :=
  match df with
  | None =>
      let msg := "DataFrame is None. Cannot sync " ++ show_pipe pipe ++ "." in
      (Returned (false, msg), db, [EvWarn msg])
  | Some df =>
      let '(reg, db1, evs1) := sync_register env db pipe in
      if negb (fst reg) then (Returned reg, db1, evs1) else
      if negb (pipe_exists pipe db1) then
        sync_tail env cat conn db1 pipe df false true evs1
      else
        match get_add_columns_queries cat conn db1 pipe df with
        | None => (Raised, db1, evs1)
        | Some [] => sync_tail env cat conn db1 pipe df check_existing false evs1
        | Some add_cols_queries =>
            let '(rs, aevs) := exec_queries conn add_cols_queries false false in
            (* [if not self.exec_queries(...)]: a list is false only when empty *)
            let wevs := match rs with
                        | [] => [EvWarn ("Failed to add new columns to " ++ show_pipe pipe ++ ".")]
                        | _ => []
                        end in
            sync_tail env cat conn db1 pipe df check_existing false (evs1 ++ aevs ++ wevs)%list
        end
  end.

(** ** Sync time *)









(** ** Key lookup *)

Definition Key : Type := (string * string * option string)%type.

Definition key_eqb (a b : Key) : bool :=
  let '(c1, m1, l1) := a in let '(c2, m2, l2) := b in
  String.eqb c1 c2 && String.eqb m1 m2 && opt_eqb l1 l2.

Definition negation_prefix : string := "_".

(** Modelled from the spec: [separate_negation_values] (meerschaum.utils.misc,
    not under src/): values starting with the negation prefix are exclusions
    (prefix removed), the others inclusions. *)
Definition separate_negation_values (vals : list (option string))
    : list (option string) * list string :=
  (filter (fun v => match v with Some s => negb (String.prefix negation_prefix s) | None => true end) vals,
   flat_map (fun v => match v with
                      | Some s => if String.prefix negation_prefix s
                                  then [substring 1 (String.length s - 1) s] else []
                      | None => [] end) vals).

(** SQL [v IN (...)] / [v NOT IN (...)]: a NULL [v] satisfies neither. *)
Definition sql_in (v : option string) (l : list (option string)) : bool :=
  match v with None => false | Some s => existsb (opt_eqb (Some s)) l end.

Definition sql_not_in (v : option string) (l : list string) : bool :=
  match v with None => false | Some s => negb (existsb (String.eqb s) l) end.

(** The [WHERE] clauses of one key column with filter [vals]. *)
Definition key_column_filter (vals : list (option string)) (v : option string) : bool :=
  match vals with
  | [] => true
  | [None] => match v with None => true | Some _ => false end   (* IS NULL *)
  | _ =>
      let '(in_vals, ex_vals) := separate_negation_values vals in
      (match in_vals with
       | [] => true
       | _ => if existsb (fun x => match x with None => true | _ => false end) in_vals
              then sql_in v in_vals || match v with None => true | _ => false end
              else sql_in v in_vals
       end)
      && (match ex_vals with [] => true | _ => sql_not_in v ex_vals end)
  end.

(** The stored tag list: [parameters.get('tags', [])]. *)
Definition stored_tags (params : json) : list string :=
  match PyDict.get "tags" (as_obj params) with
  | Some (JList l) => flat_map (fun j => match j with JStr s => [s] | _ => [] end) l
  | _ => []
  end.

Definition has_tag (t : string) (tags : list string) : bool := existsb (String.eqb t) tags.

(** The tag clauses: [LIKE '%"tags":%"t"%'] on the serialized parameters is
    taken as membership of [t] in the stored tag list.  Each direction is an
    [OR] of its clauses. *)
Definition tags_sql_filter (in_tags ex_tags : list string) (params : json) : bool :=
  (match in_tags with [] => true | _ => existsb (fun t => has_tag t (stored_tags params)) in_tags end)
  && (match ex_tags with [] => true | _ => existsb (fun t => negb (has_tag t (stored_tags params))) ex_tags end).

(** [ORDER BY connector_keys, metric_key, location_key NULLS FIRST]. *)
Definition key_leb (a b : Key) : bool :=
  let '(c1, m1, l1) := a in let '(c2, m2, l2) := b in
  match String.compare c1 c2 with
  | Lt => true | Gt => false
  | Eq =>
      match String.compare m1 m2 with
      | Lt => true | Gt => false
      | Eq =>
          match l1, l2 with
          | None, _ => true
          | Some _, None => false
          | Some x, Some y => String.leb x y
          end
      end
  end.

Fixpoint insert_row {A} (r : Key * A) (l : list (Key * A)) : list (Key * A) :=
  match l with
  | [] => [r]
  | r' :: l' => if key_leb (fst r) (fst r') then r :: l else r' :: insert_row r l'
  end.

Fixpoint sort_rows {A} (l : list (Key * A)) : list (Key * A) :=
  match l with [] => [] | r :: l' => insert_row r (sort_rows l') end.

(** [list.remove(x)]: [None] is the [ValueError] of a missing [x]. *)
Fixpoint py_remove (k : Key) (l : list Key) : option (list Key) :=
  match l with
  | [] => None
  | k' :: l' => if key_eqb k k' then Some l'
                else match py_remove k l' with Some r => Some (k' :: r) | None => None end
  end.

(** The final loop of [fetch_pipes_keys] ("Make 100% sure that the tags are
    correct"). *)
Definition tag_post_filter (in_tags ex_tags : list string) (rows : list (Key * json))
    : option (list Key) :=
  fold_left
    (fun acc row =>
       match acc with
       | None => None
       | Some keys =>
           let ktup := fst row in
           let actual := stored_tags (snd row) in
           let keys1 := (keys ++ flat_map (fun nt => if has_tag nt actual then [ktup] else []) in_tags)%list in
           fold_left
             (fun acc2 xt =>
                match acc2 with
                | None => None
                | Some ks => if has_tag xt actual then py_remove ktup ks else Some (ks ++ [ktup])%list
                end)
             ex_tags (Some keys1)
       end)
    rows (Some []).

Definition string_opts (l : list (option string)) : list string :=
  flat_map (fun o => match o with Some s => [s] | None => [] end) l.

Definition reg_key (r : RegRow) : Key := (r.(r_connector_keys), r.(r_metric_key), r.(r_location_key)).

(** [fetch_pipes_keys] with [params=None]; [None] is a raised [ValueError]. *)
Definition fetch_pipes_keys (db : DB) (connector_keys metric_keys location_keys tags : list string)
    : option (list Key) :=
  let lks := map (fun lk => if existsb (String.eqb lk) ["[None]"; "None"; "null"] then None else Some lk)
               location_keys in
  let '(in_t, ex_tags) := separate_negation_values (map Some tags) in
  let in_tags := string_opts in_t in
  let rows :=
    filter (fun r => key_column_filter (map Some connector_keys) (Some r.(r_connector_keys))
                     && key_column_filter (map Some metric_keys) (Some r.(r_metric_key))
                     && key_column_filter lks r.(r_location_key)
                     && tags_sql_filter in_tags ex_tags r.(r_parameters))
           db.(db_registry) in
  let rows := sort_rows (map (fun r => (reg_key r, r.(r_parameters))) rows) in
  match tags with
  | [] => Some (map fst rows)
  | _ => tag_post_filter in_tags ex_tags rows
  end.

(** ** Further pipe functions *)

(** [delete_pipe]: [pipe.drop()] is [drop_pipe], [pipe.id] the registry
    lookup, [delete_ok] whether [self.exec(delete)] returned a result. *)
Definition delete_pipe (cat : Catalog) (conn : Conn) (delete_ok : bool) (db : DB) (pipe : Pipe)
    : (bool * string) * DB * list Event :=
  let '(drop_tuple, db1, evs) := drop_pipe cat conn db pipe in
  if negb (fst drop_tuple) then (drop_tuple, db1, evs) else
  match get_pipe_id pipe db1 with
  | None | Some 0 => ((false, show_pipe pipe ++ " is not registered."), db1, evs)
  | Some id =>
      if delete_ok
      then ((true, "Success"),
            {| db_registry := filter (fun r => negb (Nat.eqb r.(pipe_id) id)) db1.(db_registry);
               db_tables := db1.(db_tables) |}, evs)
      else ((false, "Failed to delete registration for '" ++ show_pipe pipe ++ "'."), db1, evs)
  end.

(** [drop_indices]; [sel] is the [indices] argument ([None]: every role). *)
Definition drop_indices (cat : Catalog) (conn : Conn) (db : DB) (pipe : Pipe)
    (sel : option (list string)) : bool * list Event :=
  match pipe.(columns) with
  | [] => (false, [EvWarn ("Unable to drop indices for " ++ show_pipe pipe ++ " without columns.")])
  | _ =>
      fold_left
        (fun acc ixq =>
           let '(rs, evs) := exec_queries conn (snd ixq) false true in
           (fst acc && forallb (fun b => b) rs, (snd acc ++ evs)%list))
        (filter (fun ixq => match sel with
                            | None => true
                            | Some l => existsb (String.eqb (fst ixq)) l
                            end)
                (get_drop_index_queries cat conn db pipe))
        (true, [])
  end.

(** The datetime column of [get_backtrack_data], [get_pipe_data],
    [get_pipe_rowcount] and [clear_pipe]: [(_dt, is_guess)], [guess] being
    [pipe.guess_datetime()]. *)
Definition resolve_datetime (pipe : Pipe) (guess : option string) : option string * bool :=
  match PyDict.get "datetime" pipe.(columns) with
  | Some c => if String.eqb c "" then (guess, true) else (Some c, false)
  | None => (guess, true)
  end.

(** [dt]: [sql_item_name(_dt)] for a designated column, and for a guessed
    one [sql_item_name(_dt) if _dt else None]. *)
Definition quoted_datetime (cat : Catalog) (conn : Conn) (pipe : Pipe) (guess : option string)
    : option string :=
  let q x := cat.(sql_item_name) x conn.(flavor) in
  match resolve_datetime pipe guess with
  | (Some s, false) => Some (q s)
  | (Some s, true) => if String.eqb s "" then None else Some (q s)
  | (None, _) => None
  end.

(** [if begin is not None or end is not None: if is_guess: if _dt is None:
    begin, end = None, None] (the printed warnings are left out). *)
Definition datetime_bounds (pipe : Pipe) (guess : option string) (begin end_ : option Z)
    : option Z * option Z :=
  let '(_dt, is_guess) := resolve_datetime pipe guess in
  match begin, end_ with
  | None, None => (begin, end_)
  | _, _ => match is_guess, _dt with true, None => (None, None) | _, _ => (begin, end_) end
  end.

(** The warnings of the same test: with a bound given and a guessed
    datetime column, [No datetime could be determined ...] (followed by
    [ignoring], which is [Ignoring datetime bounds...] in [clear_pipe]) when
    there is none, else [A datetime wasn't specified ...]. *)
Definition datetime_bounds_warnings (pipe : Pipe) (guess : option string) (begin end_ : option Z)
    (ignoring : string) : list Event :=
  let '(_dt, is_guess) := resolve_datetime pipe guess in
  match begin, end_ with
  | None, None => []
  | _, _ =>
      if is_guess then
        match _dt with
        | None => [EvWarn ("No datetime could be determined for " ++ show_pipe pipe ++ "."
                           ++ nl ++ "    " ++ ignoring)]
        | Some d => [EvWarn ("A datetime wasn't specified for " ++ show_pipe pipe ++ "." ++ nl
                             ++ "    Using column " ++ dquote ++ d ++ dquote
                             ++ " for datetime bounds...")]
        end
      else []
  end.

(** Python's [s.replace(old, new)] for a non-empty [old]: every
    occurrence, left to right, without overlap. *)
Fixpoint replace_fuel (fuel : nat) (old new s : string) : string :=
  match fuel with
  | 0 => s
  | S f =>
      match s with
      | EmptyString => EmptyString
      | String c s' =>
          if String.prefix old s
          then new ++ replace_fuel f old new
                        (substring (String.length old) (String.length s - String.length old) s)
          else String c (replace_fuel f old new s')
      end
  end.

Definition str_replace (old new s : string) : string := replace_fuel (String.length s) old new s.

Definition is_some {A} (o : option A) : bool := match o with Some _ => true | None => false end.

Section Queries.
(** The helpers of [meerschaum.utils.sql] the query builders call:
    [build_where(params, self, with_where)] and
    [dateadd_str(flavor, datepart, number, begin)]. *)
Variable Params : Type.
Variable build_where : Params -> bool -> string.
Variable dateadd_str : string -> string -> Z -> option Z -> string.
Variable cat : Catalog.
Variable conn : Conn.

Let q (x : string) : string := cat.(sql_item_name) x conn.(flavor).

(** [clear_pipe]: the warnings of the datetime test, then the [DELETE]
    statement, executed silently. *)
Definition clear_pipe (db : DB) (pipe : Pipe) (guess : option string) (begin end_ : option Z)
    (params : option Params) : (bool * string) * list Event :=
  if negb (pipe_exists pipe db)
  then ((true, show_pipe pipe ++ " does not exist, so nothing was cleared."), []) else
  let pipe_name := q pipe.(target) in
  let dt_name := quoted_datetime cat conn pipe guess in
  let warnings := datetime_bounds_warnings pipe guess begin end_ "Ignoring datetime bounds..." in
  let '(begin, end_) := datetime_bounds pipe guess begin end_ in
  let clear_query :=
    "DELETE FROM " ++ pipe_name ++ nl ++ "WHERE 1 = 1" ++ nl
    ++ (match params with Some p => "  AND " ++ build_where p false | None => "" end)
    ++ (match begin with
        | Some _ => "  AND " ++ py_str dt_name ++ " >= " ++ dateadd_str conn.(flavor) "day" 0 begin
        | None => "" end)
    ++ (match end_ with
        | Some _ => "  AND " ++ py_str dt_name ++ " < " ++ dateadd_str conn.(flavor) "day" 0 end_
        | None => "" end) in
  let success := conn.(exec_ok) clear_query in
  ((success, if success then "Success" else "Failed to clear " ++ show_pipe pipe ++ "."),
   (warnings ++ [EvExec clear_query])%list).

(** The query [get_pipe_data] reads; [existing_cols] is
    [pipe.get_columns_types()]. *)
Definition get_pipe_data_query (pipe : Pipe) (guess : option string)
    (existing_cols : list (string * string)) (begin end_ : option Z) (params : option Params)
    : string :=
  let query := "SELECT * FROM " ++ q pipe.(target) in
  let _dt := fst (resolve_datetime pipe guess) in
  let dt := quoted_datetime cat conn pipe guess in
  let '(begin, end_) := datetime_bounds pipe guess begin end_ in
  let dt_in := match dt with Some d => PyDict.mem d existing_cols | None => false end in
  let where1 :=
    if is_some begin && dt_in
    then py_str dt ++ " >= " ++ dateadd_str conn.(flavor) "minute" 0 begin
         ++ (if is_some end_ then " AND " else "")
    else "" in
  let where2 :=
    where1 ++ (if is_some end_ && dt_in
               then py_str dt ++ " < " ++ dateadd_str conn.(flavor) "minute" 0 end_ else "") in
  let where3 :=
    match params with
    | Some p => where2 ++ str_replace "WHERE" (if is_some begin || is_some end_ then "AND" else "")
                                     (build_where p true)
    | None => where2
    end in
  let query := if Nat.ltb 0 (String.length where3) then query ++ nl ++ "WHERE " ++ where3 else query in
  let dt_truthy := match _dt with Some s => negb (String.eqb s "") | None => false end in
  if dt_truthy && dt_in then query ++ nl ++ "ORDER BY " ++ py_str dt ++ " DESC" else query.

End Queries.

(** ** Sample objects *)

(** A catalog that quotes nothing and knows the timescaledb hypertable test. *)
Definition sample_catalog : Catalog := {|
  sql_item_name := fun x _ => x;
  hypertable_queries := fun f =>
    if String.eqb f "timescaledb" then Some (fun t => "SELECT hypertable_size('" ++ t ++ "')")
    else None;
  get_db_type := fun t _ => t;
  get_distinct_col_count := fun c _ => "COUNT(DISTINCT " ++ c ++ ")";
  get_update_queries := fun t tmp _ => ["UPDATE " ++ t ++ " FROM " ++ tmp];
  space_partition := false
|}.

(** The same catalog, with names quoted in double quotes as PostgreSQL's
    [sql_item_name] does. *)
Definition quoting_catalog : Catalog := {|
  sql_item_name := fun x _ => dquote ++ x ++ dquote;
  hypertable_queries := hypertable_queries sample_catalog;
  get_db_type := get_db_type sample_catalog;
  get_distinct_col_count := get_distinct_col_count sample_catalog;
  get_update_queries := get_update_queries sample_catalog;
  space_partition := false
|}.

(** A connection of flavor [f] on which every statement succeeds ([ok]) or fails. *)
Definition sample_conn (f : string) (ok : bool) : Conn := {|
  flavor := f;
  value := fun _ => Some "1";
  exec_ok := fun _ => ok
|}.

Definition sample_pipe : Pipe := {|
  connector_keys := "sql:main";
  metric_key := "temperature";
  location_key := None;
  target := "weather";
  columns := [("datetime", "ts"); ("id", "station")];
  indices := [("datetime", "ix_ts"); ("id", "ix_station"); ("value", "ix_value")];
  parameters := JObj [("tags", JList [JStr "x"])]
|}.

Definition sample_db : DB := {|
  db_registry := [{| pipe_id := 1; r_connector_keys := "sql:main";
                     r_metric_key := "temperature"; r_location_key := None;
                     r_parameters := JObj [("tags", JList [JStr "x"; JStr "y"])] |}];
  db_tables := [("weather", [("ts", "datetime64[ns]"); ("station", "int64")])]
|}.

(** A batch with the table's columns, and one with a new [value] column. *)
Definition sample_frame : Frame := {|
  fr_dtypes := [("ts", "datetime64[ns]"); ("station", "int64")];
  fr_rows := [[("ts", 90000000%Z); ("station", 1%Z)]]
|}.

Definition sample_frame_wide : Frame := {|
  fr_dtypes := [("ts", "datetime64[ns]"); ("station", "int64"); ("value", "float64")];
  fr_rows := [[("ts", 90000000%Z); ("station", 1%Z); ("value", 3%Z)]]
|}.

(** An environment whose delta step finds every row both unseen and changed. *)
Definition sample_env : SyncEnv := {|
  filter_existing := fun df => (df, Some df, df);
  to_sql := fun _ _ => (true, "ok");
  insert_ok := true
|}.

(** A pipe without a designated datetime column. *)
Definition sample_pipe_no_dt : Pipe := {|
  connector_keys := "sql:main";
  metric_key := "temperature";
  location_key := None;
  target := "weather";
  columns := [("id", "station")];
  indices := [("id", "ix_station")];
  parameters := JObj []
|}.

(** A registry holding one pipe tagged [x] and [y]. *)
Definition tagged_db : DB := {|
  db_registry := [{| pipe_id := 1; r_connector_keys := "a"; r_metric_key := "m";
                     r_location_key := None;
                     r_parameters := JObj [("tags", JList [JStr "x"; JStr "y"])] |}];
  db_tables := []
|}.

(** * Properties *)

(** ** Dictionary lemmas *)
Module PyDictFacts.
Import PyDict.

Lemma get_set_eq {A} (k : string) (v : A) d : get k (set k v d) = Some v.
Proof.
  induction d as [|[k' v'] d IH]; simpl; [now rewrite String.eqb_refl|].
  destruct (String.eqb k k') eqn:E; simpl; rewrite ?String.eqb_refl; auto.
  now rewrite E.
Qed.

Lemma get_set_neq {A} (k k' : string) (v : A) d :
  k <> k' -> get k' (set k v d) = get k' d.
Proof.
  intros Hne. induction d as [|[k0 v0] d IH]; simpl.
  - apply String.eqb_neq in Hne. rewrite String.eqb_sym, Hne. reflexivity.
  - destruct (String.eqb k k0) eqn:E; simpl.
    + apply String.eqb_eq in E; subst k0.
      destruct (String.eqb k' k) eqn:E2; [apply String.eqb_eq in E2; congruence|reflexivity].
    + destruct (String.eqb k' k0); auto.
Qed.

Lemma mem_get {A} k (d : list (string * A)) : mem k d = true <-> exists v, get k d = Some v.
Proof. unfold mem; destruct (get k d); split; intros H; eauto; try discriminate; now destruct H. Qed.

Lemma get_in_keys {A} k (d : list (string * A)) v : get k d = Some v -> In k (keys d).
Proof.
  induction d as [|[k' v'] d IH]; simpl; [discriminate|].
  destruct (String.eqb k k') eqn:E; [apply String.eqb_eq in E; auto|auto].
Qed.

Lemma get_none_keys {A} k (d : list (string * A)) : ~ In k (keys d) -> get k d = None.
Proof. intros H; destruct (get k d) eqn:E; auto; exfalso; eauto using get_in_keys. Qed.

Lemma keys_set {A} k (v : A) d : NoDup (keys d) -> NoDup (keys (set k v d)) /\
  (forall x, In x (keys (set k v d)) <-> x = k \/ In x (keys d)).
Proof.
  induction d as [|[k' v'] d IH]; simpl; intros Hnd.
  - split; [constructor; [easy|constructor]|]. intros x; simpl; intuition congruence.
  - inversion Hnd as [|? ? Hni Hnd']; subst.
    destruct (String.eqb k k') eqn:E; simpl.
    + apply String.eqb_eq in E; subst k'. split; [constructor; auto|].
      intros x; simpl; intuition congruence.
    + destruct (IH Hnd') as [H1 H2]. split.
      * constructor; auto. rewrite H2. apply String.eqb_neq in E. intros [->|C]; auto.
      * intros x; simpl; rewrite H2; intuition congruence.
Qed.

Lemma get_update {A} (d e : list (string * A)) k :
  NoDup (keys e) ->
  get k (update d e) = match get k e with Some v => Some v | None => get k d end.
Proof.
  unfold update. revert d. induction e as [|[k' v'] e IH]; intros d Hnd; simpl; auto.
  inversion Hnd as [|? ? Hni Hnd']; subst. rewrite IH by auto.
  destruct (String.eqb k k') eqn:E.
  - apply String.eqb_eq in E; subst k'. rewrite get_none_keys by auto.
    apply get_set_eq.
  - destruct (get k e); auto. apply get_set_neq. apply String.eqb_neq in E; auto.
Qed.

Lemma keys_update {A} (d e : list (string * A)) :
  NoDup (keys d) -> NoDup (keys (update d e)) /\
  (forall x, In x (keys (update d e)) <-> In x (keys e) \/ In x (keys d)).
Proof.
  unfold update. revert d. induction e as [|[k' v'] e IH]; intros d Hnd; simpl.
  - split; auto. intros x; unfold keys; simpl; tauto.
  - destruct (keys_set k' v' d Hnd) as [H1 H2]. destruct (IH _ H1) as [H3 H4].
    split; auto. intros x. rewrite H4, H2. unfold keys; simpl; intuition congruence.
Qed.
End PyDictFacts.

(** ** Table lemmas *)
Lemma underscore_neq (t : string) : "_" ++ t <> t.
Proof.
  assert (H : forall c t, String c t <> t).
  { intros c0 t0. revert c0. induction t0 as [|a t0 IH]; intros c0 Heq; [discriminate|].
    injection Heq as -> Heq. exact (IH a Heq). }
  apply H.
Qed.

Lemma remove_table_same name db : table_exists name (remove_table name db) = false.
Proof.
  unfold table_exists, remove_table, PyDict.mem; simpl.
  induction (db_tables db) as [|[k v] l IH]; simpl; auto.
  destruct (String.eqb k name) eqn:E; simpl.
  - exact IH.
  - rewrite String.eqb_sym, E. exact IH.
Qed.

Lemma remove_table_other name other db :
  other <> name -> table_exists other (remove_table name db) = table_exists other db.
Proof.
  intros Hne. unfold table_exists, remove_table, PyDict.mem; simpl.
  induction (db_tables db) as [|[k v] l IH]; simpl; auto.
  destruct (String.eqb k name) eqn:E; simpl.
  - apply String.eqb_eq in E; subst k.
    apply String.eqb_neq in Hne. rewrite Hne. exact IH.
  - destruct (String.eqb other k); auto.
Qed.

(** ** C10 *)

(** C10: [sync] of an absent batch ([df is None]) returns a failure with a
    message and changes nothing: the store is the same, nothing is registered,
    executed or written; the only effect is the logged warning. *)
Theorem sync_pipe_none_df : forall env cat conn db pipe check_existing,
  exists msg, msg <> "" /\
    sync_pipe env cat conn db pipe None check_existing = (Returned (false, msg), db, [EvWarn msg]).
Proof.
  intros. eexists. split; [|reflexivity]. discriminate.
Qed.

(** ** C9 *)

(** C9: [drop_pipe] leaves the registry (ids and parameters) as it is and
    every table other than the target and ['_' + target]; it reports success
    exactly when neither of the two tables remains; when both [DROP TABLE]
    statements succeed, neither remains. *)
Theorem drop_pipe_drops_tables : forall cat conn db pipe,
  let '(res, db', _) := drop_pipe cat conn db pipe in
  db'.(db_registry) = db.(db_registry) /\
  (forall other, other <> pipe.(target) -> other <> "_" ++ pipe.(target) ->
     table_exists other db' = table_exists other db) /\
  (fst res = true <-> table_exists pipe.(target) db' = false
                      /\ table_exists ("_" ++ pipe.(target)) db' = false) /\
  (conn.(exec_ok) ("DROP TABLE " ++ cat.(sql_item_name) pipe.(target) conn.(flavor)) = true ->
   conn.(exec_ok) ("DROP TABLE " ++ cat.(sql_item_name) ("_" ++ pipe.(target)) conn.(flavor)) = true ->
   table_exists pipe.(target) db' = false /\ table_exists ("_" ++ pipe.(target)) db' = false).
Proof.
  intros cat conn db pipe. unfold drop_pipe. cbv beta zeta.
  set (t := target pipe) in *. set (tt := "_" ++ t) in *.
  set (s1 := "DROP TABLE " ++ sql_item_name cat t (flavor conn)) in *.
  set (s2 := "DROP TABLE " ++ sql_item_name cat tt (flavor conn)) in *.
  assert (Hne : tt <> t) by apply underscore_neq.
  assert (Hsame := remove_table_same).
  assert (Hother := remove_table_other).
  destruct (table_exists t db) eqn:Et; [destruct (exec_ok conn s1) eqn:D1|];
    cbv beta iota.
  - destruct (table_exists tt (remove_table t db)) eqn:Ett;
      [destruct (exec_ok conn s2) eqn:D2|]; cbv beta iota; simpl fst;
      repeat split; intros; auto; try discriminate;
      repeat rewrite Hother by auto; auto;
      repeat match goal with H : _ /\ _ |- _ => destruct H end; try congruence.
  - destruct (table_exists tt db) eqn:Ett; cbv beta iota; simpl fst;
      repeat split; intros; auto; try discriminate;
      repeat match goal with H : _ /\ _ |- _ => destruct H end; try congruence.
  - destruct (table_exists tt db) eqn:Ett;
      [destruct (exec_ok conn s2) eqn:D2|]; cbv beta iota; simpl fst;
      repeat split; intros; auto; try discriminate;
      repeat rewrite Hother by auto; auto;
      repeat match goal with H : _ /\ _ |- _ => destruct H end; try congruence.
Qed.

(** ** Sync lemmas *)

(** Events that neither fetch existing rows nor write a dataframe. *)
Definition side (ev : Event) : Prop :=
  match ev with EvFilterExisting | EvToSql _ _ => False | _ => True end.

Lemma exec_queries_side conn qs b s : Forall side (snd (exec_queries conn qs b s)).
Proof.
  induction qs as [|x qs IH]; simpl; [constructor|].
  destruct (exec_ok conn x); [|destruct b].
  - destruct (exec_queries conn qs b s) as [rs evs]; simpl in *. constructor; simpl; auto.
  - simpl. constructor; [exact I|]. unfold exec_failure_log; destruct s; repeat constructor.
  - destruct (exec_queries conn qs false s) as [rs evs]; simpl in *.
    constructor; [exact I|]. apply Forall_app; split; auto.
    unfold exec_failure_log; destruct s; repeat constructor.
Qed.

Lemma exec_queries_logs_failure conn qs b :
  existsb negb (fst (exec_queries conn qs b false)) = true ->
  exists s, In s qs /\ In (EvWarn ("Failed to execute query:" ++ nl ++ s)) (snd (exec_queries conn qs b false)).
Proof.
  induction qs as [|x qs IH]; simpl; [discriminate|].
  destruct (exec_ok conn x) eqn:E; [|destruct b].
  - destruct (exec_queries conn qs b false) as [rs evs] eqn:Q; simpl in *.
    intros H. destruct (IH H) as [s [Hs Hin]]. exists s; split; simpl; auto.
  - intros _. exists x; simpl; auto.
  - intros _. destruct (exec_queries conn qs false false) as [rs evs]; simpl.
    exists x; split; auto.
Qed.

Lemma create_indices_side cat conn pipe b evs :
  create_indices cat conn pipe = Some (b, evs) -> Forall side evs.
Proof.
  unfold create_indices. destruct (columns pipe).
  - intros H; injection H as _ <-. repeat constructor.
  - destruct (get_create_index_queries cat conn pipe) as [iq|]; [|discriminate].
    intros H; injection H as H. 
    assert (G : forall (l : list (string * list string)) (acc : bool * list Event), Forall side (snd acc) ->
              Forall side (snd (fold_left (fun acc ixq =>
                 let '(rs, evs) := exec_queries conn (snd ixq) false true in
                 (fst acc && forallb (fun b => b) rs, (snd acc ++ evs)%list)) l acc))).
    { intros l0; induction l0 as [|x l0 IH]; intros acc Hacc; simpl; auto.
      apply IH. pose proof (exec_queries_side conn (snd x) false true) as Hx.
      destruct (exec_queries conn (snd x) false true); simpl in *.
      apply Forall_app; auto. }
    specialize (G iq (true, []) (Forall_nil _)). rewrite H in G. exact G.
Qed.

Lemma drop_pipe_side cat conn db pipe : Forall side (snd (drop_pipe cat conn db pipe)).
Proof.
  unfold drop_pipe. cbv beta zeta.
  destruct (table_exists (target pipe) db); [destruct (exec_ok _ _)|];
  cbv beta iota;
  match goal with |- context[if table_exists ?x ?d then _ else _] => destruct (table_exists x d) end;
  try destruct (exec_ok _ _); cbv beta iota; simpl; repeat constructor.
Qed.

Lemma sync_register_spec env db pipe :
  let '(reg, db1, evs1) := sync_register env db pipe in
  db_tables db1 = db_tables db /\ Forall side evs1 /\ (fst reg = false -> evs1 = []).
Proof.
  unfold sync_register, register_pipe.
  destruct (get_pipe_id pipe db) as [[|n]|]; simpl; auto;
    try (destruct (insert_ok env); simpl; repeat constructor; discriminate).
Qed.

Lemma insert_unseen_shape env cat conn db pipe unseen update is_new evs :
  exists rest,
    snd (insert_unseen env cat conn db pipe unseen update is_new evs)
    = (evs ++ EvToSql (target pipe) unseen :: rest)%list /\ Forall side rest.
Proof.
  unfold insert_unseen. cbv zeta.
  destruct is_new.
  - destruct (create_indices cat conn pipe) as [[b cevs]|] eqn:C.
    + pose proof (create_indices_side _ _ _ _ _ C) as Hc.
      exists (EvCreateIndices :: cevs).
      destruct (negb (fst (to_sql env (target pipe) unseen))); simpl snd;
        rewrite <- app_assoc; (split; [reflexivity|constructor; [exact I|exact Hc]]).
    + exists []. split; [reflexivity|constructor].
  - exists [].
    destruct (negb (fst (to_sql env (target pipe) unseen))); simpl snd;
      rewrite app_nil_r; (split; [reflexivity|constructor]).
Qed.

Lemma sync_tail_unchecked env cat conn db pipe df is_new evs :
  sync_tail env cat conn db pipe df false is_new evs
  = insert_unseen env cat conn db pipe df None is_new evs.
Proof. reflexivity. Qed.

Lemma get_add_columns_queries_tables cat conn db db' pipe df :
  db_tables db' = db_tables db ->
  get_add_columns_queries cat conn db' pipe df = get_add_columns_queries cat conn db pipe df.
Proof.
  destruct db as [r t], db' as [r' t']; simpl; intros ->. reflexivity.
Qed.

Lemma pipe_exists_tables db db' pipe :
  db_tables db' = db_tables db -> pipe_exists pipe db' = pipe_exists pipe db.
Proof. unfold pipe_exists, table_exists. intros ->. reflexivity. Qed.

Lemma unseen_trace_facts (E rest : list Event) t df :
  Forall side E -> Forall side rest ->
  ~ In EvFilterExisting (E ++ EvToSql t df :: rest)%list /\
  In (EvToSql t df) (E ++ EvToSql t df :: rest)%list /\
  forall u, ~ In (EvToSql ("_" ++ t) u) (E ++ EvToSql t df :: rest)%list.
Proof.
  intros HE Hr. rewrite Forall_forall in HE, Hr. repeat split.
  - intros H. apply in_app_or in H as [H|[H|H]];
      [exact (HE _ H)|discriminate|exact (Hr _ H)].
  - apply in_or_app; right; left; reflexivity.
  - intros u H. apply in_app_or in H as [H|[H|H]];
      [exact (HE _ H)| |exact (Hr _ H)].
    injection H as H _. exact (underscore_neq t (eq_sym H)).
Qed.

Lemma sync_tail_update_failure env cat conn db pipe df is_new E unseen u delta :
  env.(filter_existing) df = (unseen, Some u, delta) ->
  frame_empty u = false ->
  forallb (fun b => b) (fst (exec_queries conn (update_queries cat pipe) true false)) = false ->
  Forall side E ->
  let '(out, _, evs) := sync_tail env cat conn db pipe df true is_new E in
  (exists msg, out = Returned (false, msg)) /\ forall f, ~ In (EvToSql (target pipe) f) evs.
Proof.
  intros Hf Hu Hq HE. unfold sync_tail, partition. rewrite Hf, Hu. cbv beta iota zeta.
  pose proof (exec_queries_side conn (update_queries cat pipe) true false) as Hs.
  destruct (exec_queries conn (update_queries cat pipe) true false) as [rs qevs].
  simpl in Hq, Hs. rewrite Hq. cbv beta iota. split; [eexists; reflexivity|].
  intros f H. rewrite Forall_forall in HE, Hs.
  apply in_app_or in H as [H|H]; [apply in_app_or in H as [H|[H|[]]]; [exact (HE _ H)|discriminate]|].
  destruct H as [H|H]; [injection H as H _; exact (underscore_neq (target pipe) H)|].
  exact (Hs _ H).
Qed.

(** ** C2 *)

(** C2: when [check_existing] is off, or the pipe's table does not exist,
    [sync] never fetches existing rows; its delta step is [(df, None, df)];
    and it either writes the entire batch to the pipe's table as the unseen
    rows with no shadow-table (update) write, or stops before writing
    anything. *)
Theorem sync_unchecked_writes_whole_batch : forall env cat conn db pipe df check_existing,
  (check_existing = false \/ pipe_exists pipe db = false) ->
  partition env false df = (df, None, df) /\
  let evs := snd (sync_pipe env cat conn db pipe (Some df) check_existing) in
  ~ In EvFilterExisting evs /\
  ((In (EvToSql (target pipe) df) evs /\ forall u, ~ In (EvToSql ("_" ++ target pipe) u) evs)
   \/ Forall side evs).
Proof.
  intros env cat conn db pipe df check_existing Hc. split; [reflexivity|].
  unfold sync_pipe.
  pose proof (sync_register_spec env db pipe) as R.
  destruct (sync_register env db pipe) as [[reg db1] evs1]. destruct R as [Ht [Hs _]].
  assert (Hnf : forall l, Forall side l -> ~ In EvFilterExisting l).
  { intros l Hl H. rewrite Forall_forall in Hl. exact (Hl _ H). }
  assert (Fin : forall E, Forall side E ->
            let evs := snd (insert_unseen env cat conn db1 pipe df None true E) in
            ~ In EvFilterExisting evs /\
            ((In (EvToSql (target pipe) df) evs /\ forall u, ~ In (EvToSql ("_" ++ target pipe) u) evs)
             \/ Forall side evs)).
  { intros E HE. destruct (insert_unseen_shape env cat conn db1 pipe df None true E) as [rest [Eq Hr]].
    cbv zeta. rewrite Eq. destruct (unseen_trace_facts E rest (target pipe) df HE Hr) as [A [B C]].
    split; [exact A|left; split; [exact B|exact C]]. }
  assert (Fin' : forall E, Forall side E ->
            let evs := snd (insert_unseen env cat conn db1 pipe df None false E) in
            ~ In EvFilterExisting evs /\
            ((In (EvToSql (target pipe) df) evs /\ forall u, ~ In (EvToSql ("_" ++ target pipe) u) evs)
             \/ Forall side evs)).
  { intros E HE. destruct (insert_unseen_shape env cat conn db1 pipe df None false E) as [rest [Eq Hr]].
    cbv zeta. rewrite Eq. destruct (unseen_trace_facts E rest (target pipe) df HE Hr) as [A [B C]].
    split; [exact A|left; split; [exact B|exact C]]. }
  destruct (negb (fst reg)).
  - simpl. split; [apply Hnf; exact Hs|right; exact Hs].
  - rewrite (pipe_exists_tables db db1 pipe Ht).
    destruct (pipe_exists pipe db) eqn:Ex; simpl negb; cbv iota.
    + destruct Hc as [-> | C]; [|discriminate].
      destruct (get_add_columns_queries cat conn db1 pipe df) as [[|q0 qs]|].
      * rewrite sync_tail_unchecked. apply Fin'. exact Hs.
      * pose proof (exec_queries_side conn (q0 :: qs) false false) as Ha.
        destruct (exec_queries conn (q0 :: qs) false false) as [rs aevs].
        rewrite sync_tail_unchecked. apply Fin'.
        apply Forall_app; split; [exact Hs|apply Forall_app; split; [exact Ha|]].
        destruct rs; repeat constructor.
      * simpl. split; [apply Hnf; exact Hs|right; exact Hs].
    + rewrite sync_tail_unchecked. apply Fin. exact Hs.
Qed.

(** ** C1 *)

(** C1: when the update subset is non-empty and the execution of the
    shadow-table upsert statements fails, [sync] returns a failure and never
    writes to the pipe's own table in that call. *)
Theorem sync_update_failure_withholds_unseen :
  forall env cat conn db pipe df unseen u delta,
  pipe_exists pipe db = true ->
  get_add_columns_queries cat conn db pipe df <> None ->
  env.(filter_existing) df = (unseen, Some u, delta) ->
  frame_empty u = false ->
  forallb (fun b => b) (fst (exec_queries conn (update_queries cat pipe) true false)) = false ->
  let '(out, _, evs) := sync_pipe env cat conn db pipe (Some df) true in
  (exists msg, out = Returned (false, msg)) /\ forall f, ~ In (EvToSql (target pipe) f) evs.
Proof.
  intros env cat conn db pipe df unseen u delta Ex Hadd Hf Hu Hq. unfold sync_pipe.
  pose proof (sync_register_spec env db pipe) as R.
  destruct (sync_register env db pipe) as [[reg db1] evs1]. destruct R as [Ht [Hs _]].
  destruct (negb (fst reg)) eqn:Hreg.
  - cbv iota. split.
    + destruct reg as [b m]; simpl in Hreg. destruct b; [discriminate|]. eexists; reflexivity.
    + intros f H. rewrite Forall_forall in Hs. exact (Hs _ H).
  - rewrite (pipe_exists_tables db db1 pipe Ht), Ex. simpl negb. cbv iota.
    rewrite (get_add_columns_queries_tables cat conn db db1 pipe df Ht).
    destruct (get_add_columns_queries cat conn db pipe df) as [[|q0 qs]|]; [| |congruence].
    + apply (sync_tail_update_failure _ _ _ _ _ _ _ _ _ _ _ Hf Hu Hq Hs).
    + pose proof (exec_queries_side conn (q0 :: qs) false false) as Ha.
      destruct (exec_queries conn (q0 :: qs) false false) as [rs aevs].
      apply (sync_tail_update_failure _ _ _ _ _ _ _ _ _ _ _ Hf Hu Hq).
      apply Forall_app; split; [exact Hs|apply Forall_app; split; [exact Ha|]].
      destruct rs; repeat constructor.
Qed.

(** ** C8 *)

(** C8: when the table exists and some statement of the schema
    reconciliation fails, the failure is logged and [sync] goes on with
    exactly the steps it takes after a successful reconciliation (delta
    computation, update, insert, [sync_tail]), whose inputs do not depend on
    the reconciliation's results; the only earlier exit is a failed
    registration, which writes nothing. *)
Theorem sync_continues_after_reconcile_failure :
  forall env cat conn db pipe df check_existing qs,
  pipe_exists pipe db = true ->
  get_add_columns_queries cat conn db pipe df = Some qs ->
  qs <> [] ->
  existsb negb (fst (exec_queries conn qs false false)) = true ->
  let r := sync_pipe env cat conn db pipe (Some df) check_existing in
  (exists msg, fst (fst r) = Returned (false, msg) /\ snd r = [])
  \/ exists db1 evs1,
       db_tables db1 = db_tables db /\
       (exists s, In s qs /\ In (EvWarn ("Failed to execute query:" ++ nl ++ s)) evs1) /\
       r = sync_tail env cat conn db1 pipe df check_existing false evs1.
Proof.
  intros env cat conn db pipe df check_existing qs Ex Hadd Hne Hfail. cbv zeta. unfold sync_pipe.
  pose proof (sync_register_spec env db pipe) as R.
  destruct (sync_register env db pipe) as [[reg db1] evs1]. destruct R as [Ht [_ Hf]].
  destruct reg as [b m]. destruct b; simpl negb; cbv iota.
  - right. rewrite (pipe_exists_tables db db1 pipe Ht), Ex. simpl negb. cbv iota.
    rewrite (get_add_columns_queries_tables cat conn db db1 pipe df Ht), Hadd.
    destruct qs as [|q0 qs]; [congruence|].
    destruct (exec_queries_logs_failure conn (q0 :: qs) false Hfail) as [s [Hin Hw]].
    destruct (exec_queries conn (q0 :: qs) false false) as [rs aevs]. simpl in Hw.
    eexists db1, _. split; [exact Ht|]. split; [|reflexivity].
    exists s. split; [exact Hin|]. apply in_or_app; right; apply in_or_app; left; exact Hw.
  - left. exists m. split; [reflexivity|]. simpl. apply Hf. reflexivity.
Qed.

(** ** C5 *)

Lemma nuke_loop_roles indices nq :
  nuke_loop indices nq ["datetime"; "id"] false []
  = if PyDict.mem "datetime" indices then [("datetime", nq)]
    else if PyDict.mem "id" indices then [("id", nq)] else [].
Proof.
  simpl. destruct (PyDict.mem "datetime" indices); simpl;
    destruct (PyDict.mem "id" indices); reflexivity.
Qed.

Lemma get_map_filter {A B} (f : A -> B) (P : string -> bool) r (l : list (string * A)) :
  PyDict.get r (map (fun kv => (fst kv, f (snd kv))) (filter (fun kv => P (fst kv)) l))
  = if P r then option_map f (PyDict.get r l) else None.
Proof.
  induction l as [|[k v] l IH]; simpl.
  - destruct (P r); reflexivity.
  - destruct (P k) eqn:Pk; simpl.
    + destruct (String.eqb r k) eqn:E; [apply String.eqb_eq in E; subst k; rewrite Pk; reflexivity|exact IH].
    + destruct (String.eqb r k) eqn:E; [|exact IH].
      apply String.eqb_eq in E; subst k. rewrite Pk in *. exact IH.
Qed.

Lemma keys_map_filter {A B} (f : A -> B) (P : string -> bool) (l : list (string * A)) :
  NoDup (PyDict.keys l) ->
  NoDup (PyDict.keys (map (fun kv => (fst kv, f (snd kv))) (filter (fun kv => P (fst kv)) l))).
Proof.
  unfold PyDict.keys. induction l as [|[k v] l IH]; simpl; intros Hnd; [constructor|].
  inversion Hnd as [|? ? Hni Hnd']; subst.
  destruct (P k); simpl; [constructor|]; auto.
  intros Hin. apply Hni. rewrite map_map in Hin. simpl in Hin.
  apply in_map_iff in Hin as [[k' v'] [Hk Hin]]. simpl in Hk; subst k'.
  apply filter_In in Hin as [Hin _]. apply (in_map fst) in Hin. exact Hin.
Qed.

Lemma nuke_queries_long cat conn db pipe : 3 <= List.length (nuke_queries cat conn db pipe).
Proof.
  unfold nuke_queries. destruct (table_exists _ db); simpl; lia.
Qed.

(** C5: for a hypertable with a [datetime] or [id] index, the drop plan
    gives the rebuild sequence ([nuke_queries]: an optional drop of a stale
    temporary table, then copy into the temporary table, drop the original,
    rename the temporary table back) to exactly one role, [datetime] when it
    has an index and [id] otherwise; every other index role (the other
    partition role included) gets the single statement [DROP INDEX ix]; the
    plan has one entry per index role. *)
Theorem drop_plan_single_rebuild : forall cat conn db pipe,
  NoDup (PyDict.keys (indices pipe)) ->
  pipe_exists pipe db = true ->
  drop_is_hypertable cat conn pipe = true ->
  (PyDict.mem "datetime" (indices pipe) || PyDict.mem "id" (indices pipe)) = true ->
  let first := if PyDict.mem "datetime" (indices pipe) then "datetime" else "id" in
  let plan := get_drop_index_queries cat conn db pipe in
  NoDup (PyDict.keys plan) /\
  (forall r, PyDict.mem r plan = PyDict.mem r (indices pipe)) /\
  PyDict.get first plan = Some (nuke_queries cat conn db pipe) /\
  (forall r ix, r <> first -> PyDict.get r (indices pipe) = Some ix ->
     PyDict.get r plan = Some (plain_drop cat conn ix)) /\
  (forall r, PyDict.get r plan = Some (nuke_queries cat conn db pipe) -> r = first).
Proof.
  intros cat conn db pipe Hnd Ex Hh Hm first plan.
  set (nq := nuke_queries cat conn db pipe).
  set (e := map (fun kv => (fst kv, plain_drop cat conn (snd kv)))
              (filter (fun kv => negb (PyDict.mem (fst kv) [(first, nq)])) (indices pipe))).
  assert (Hplan : plan = PyDict.update [(first, nq)] e).
  { unfold plan, get_drop_index_queries. rewrite Ex, Hh. cbv beta zeta delta [negb]. cbv iota.
    rewrite nuke_loop_roles. unfold first, e, nq.
    destruct (PyDict.mem "datetime" (indices pipe)); [reflexivity|].
    destruct (PyDict.mem "id" (indices pipe)); [reflexivity|discriminate]. }
  assert (He : NoDup (PyDict.keys e)).
  { unfold e. exact (keys_map_filter (plain_drop cat conn)
                       (fun k => negb (PyDict.mem k [(first, nq)])) _ Hnd). }
  assert (Hget : forall r, PyDict.get r plan
                   = if String.eqb r first then Some nq
                     else option_map (plain_drop cat conn) (PyDict.get r (indices pipe))).
  { intros r. rewrite Hplan, PyDictFacts.get_update by exact He. unfold e.
    rewrite (get_map_filter (plain_drop cat conn) (fun k => negb (PyDict.mem k [(first, nq)]))).
    unfold PyDict.mem; simpl. destruct (String.eqb r first) eqn:E; simpl; [reflexivity|].
    destruct (PyDict.get r (indices pipe)); reflexivity. }
  assert (Hfirst : PyDict.mem first (indices pipe) = true).
  { unfold first. destruct (PyDict.mem "datetime" (indices pipe)) eqn:D; [exact D|exact Hm]. }
  repeat split.
  - rewrite Hplan. apply PyDictFacts.keys_update. repeat constructor. easy.
  - intros r. unfold PyDict.mem at 1. rewrite Hget.
    destruct (String.eqb r first) eqn:E.
    + apply String.eqb_eq in E; subst r. symmetry; exact Hfirst.
    + unfold PyDict.mem. destruct (PyDict.get r (indices pipe)); reflexivity.
  - rewrite Hget, String.eqb_refl. reflexivity.
  - intros r ix Hr Hix. rewrite Hget. apply String.eqb_neq in Hr. rewrite Hr, Hix. reflexivity.
  - intros r H. rewrite Hget in H. destruct (String.eqb r first) eqn:E.
    + apply String.eqb_eq in E; exact E.
    + destruct (PyDict.get r (indices pipe)); simpl in H; [|discriminate].
      injection H as H. pose proof (nuke_queries_long cat conn db pipe) as L.
      fold nq in L. rewrite <- H in L. simpl in L. lia.
Qed.

(** ** C6 *)






(** ** C7 *)

Lemma get_pipe_id_set_parameters p id params db :
  get_pipe_id p (set_parameters id params db) = get_pipe_id p db.
Proof.
  unfold get_pipe_id, set_parameters; simpl.
  induction (db_registry db) as [|r rs IH]; simpl; [reflexivity|].
  destruct (Nat.eqb (pipe_id r) id); unfold row_has_keys at 1; simpl;
    fold (row_has_keys (connector_keys p) (metric_key p) (location_key p) r);
    destruct (row_has_keys _ _ _ r); simpl; auto.
Qed.

Lemma find_set_parameters id params (rs : list RegRow) :
  (exists r, In r rs /\ pipe_id r = id) ->
  exists r', find (fun r => Nat.eqb (pipe_id r) id)
               (map (fun r => if Nat.eqb (pipe_id r) id
                              then {| pipe_id := pipe_id r; r_connector_keys := r_connector_keys r;
                                      r_metric_key := r_metric_key r;
                                      r_location_key := r_location_key r; r_parameters := params |}
                              else r) rs) = Some r'
             /\ r_parameters r' = params.
Proof.
  induction rs as [|r rs IH]; simpl; intros [r0 [Hin Hid]]; [contradiction|].
  destruct (Nat.eqb (pipe_id r) id) eqn:E; simpl.
  - rewrite E. eexists; split; reflexivity.
  - rewrite E. apply IH. destruct Hin as [<-|Hin].
    + apply Nat.eqb_neq in E. contradiction.
    + eauto.
Qed.

Lemma fetch_parameters_keys db p p' :
  connector_keys p' = connector_keys p -> metric_key p' = metric_key p ->
  location_key p' = location_key p -> fetch_parameters db p' = fetch_parameters db p.
Proof.
  intros H1 H2 H3. unfold fetch_parameters, get_pipe_id. rewrite H1, H2, H3. reflexivity.
Qed.

(** C7: editing a pipe with no registered id fails with the not-registered
    message and changes nothing.  For a registered pipe, with [patch] set and
    a successful update, the stored parameters become the deep merge of the
    pipe's parameters onto the parameters read back from the registry (which
    depend only on the pipe's keys, not on its in-memory parameters), and that
    merge is what a later read of the registry returns. *)
Theorem edit_pipe_patch_spec : forall update_ok db pipe patch,
  (get_pipe_id pipe db = None ->
   edit_pipe update_ok db pipe patch
   = ((false, show_pipe pipe ++ " is not registered and cannot be edited."), db)) /\
  (forall pipe', connector_keys pipe' = connector_keys pipe -> metric_key pipe' = metric_key pipe ->
     location_key pipe' = location_key pipe -> fetch_parameters db pipe' = fetch_parameters db pipe) /\
  (forall id, get_pipe_id pipe db = Some id -> patch = true -> update_ok = true ->
   let merged := apply_patch_to_config (fetch_parameters db pipe) (parameters pipe) in
   edit_pipe update_ok db pipe patch
   = ((true, "Successfully edited " ++ show_pipe pipe ++ "."), set_parameters id merged db) /\
   fetch_parameters (set_parameters id merged db) pipe = merged).
Proof.
  intros update_ok db pipe patch. split; [|split].
  - intros H. unfold edit_pipe. rewrite H. reflexivity.
  - intros pipe'. apply fetch_parameters_keys.
  - intros id Hid -> -> merged. split.
    + unfold edit_pipe. rewrite Hid. reflexivity.
    + unfold fetch_parameters at 1. rewrite get_pipe_id_set_parameters, Hid.
      unfold get_pipe_id in Hid.
      destruct (find (row_has_keys (connector_keys pipe) (metric_key pipe) (location_key pipe))
                  (db_registry db)) as [r|] eqn:F; [|discriminate].
      injection Hid as Hid. apply find_some in F as [Hin _].
      destruct (find_set_parameters id merged (db_registry db) (ex_intro _ r (conj Hin Hid)))
        as [r' [Hf Hp]].
      unfold set_parameters; simpl. rewrite Hf. exact Hp.
Qed.

(** ** C3 *)

(** C3 (divergence): a pipe stored with the tags [x] and [y] is returned by
    the tag filter [x, _y, _z] although it carries the excluded tag [y]: the
    [NOT LIKE] clauses are joined by [OR], so the row passes the query, and
    the final loop appends the key again for the excluded tag [z] it lacks
    after removing it for [y].  With the filter [_y, _z] the same loop
    removes a key that was never added: [keys.remove] raises [ValueError]. *)
Lemma fetch_pipes_keys_excluded_tag_kept :
  stored_tags (JObj [("tags", JList [JStr "x"; JStr "y"])]) = ["x"; "y"] /\
  fetch_pipes_keys tagged_db [] [] [] ["x"; "_y"; "_z"] = Some [("a", "m", None)] /\
  fetch_pipes_keys tagged_db [] [] [] ["_y"; "_z"] = None.
Proof. vm_compute. repeat split. Qed.

(** ** Instances of the theorems on the sample objects *)

(** C10 needs none; the others at the sample pipe [weather]. *)

Lemma drop_pipe_drops_tables_witness :
  exec_ok (sample_conn "postgresql" true) "DROP TABLE weather" = true /\
  let r := drop_pipe sample_catalog (sample_conn "postgresql" true) sample_db sample_pipe in
  fst (fst r) = (true, "Success") /\
  table_exists "weather" (snd (fst r)) = false /\ table_exists "_weather" (snd (fst r)) = false.
Proof.
  split; [reflexivity|].
  pose proof (drop_pipe_drops_tables sample_catalog (sample_conn "postgresql" true) sample_db sample_pipe) as H.
  cbv zeta.
  destruct (drop_pipe sample_catalog (sample_conn "postgresql" true) sample_db sample_pipe)
    as [[res db'] evs] eqn:E.
  destruct H as (_ & _ & Hres & H4). simpl.
  split; [|apply H4; reflexivity].
  vm_compute in E. injection E as <- _ _. reflexivity.
Defined.

Lemma sync_unchecked_writes_whole_batch_witness :
  pipe_exists sample_pipe sample_db = true /\
  let evs := snd (sync_pipe sample_env sample_catalog (sample_conn "postgresql" true)
                            sample_db sample_pipe (Some sample_frame) false) in
  ~ In EvFilterExisting evs /\
  ((In (EvToSql "weather" sample_frame) evs /\ forall u, ~ In (EvToSql "_weather" u) evs)
   \/ Forall side evs).
Proof.
  split; [reflexivity|].
  exact (proj2 (sync_unchecked_writes_whole_batch sample_env sample_catalog
                  (sample_conn "postgresql" true) sample_db sample_pipe sample_frame false
                  (or_introl eq_refl))).
Defined.

Lemma sync_update_failure_withholds_unseen_witness :
  forallb (fun b => b) (fst (exec_queries (sample_conn "postgresql" false)
                               (update_queries sample_catalog sample_pipe) true false)) = false /\
  let r := sync_pipe sample_env sample_catalog (sample_conn "postgresql" false)
             sample_db sample_pipe (Some sample_frame) true in
  (exists msg, fst (fst r) = Returned (false, msg)) /\
  forall f, ~ In (EvToSql "weather" f) (snd r).
Proof.
  assert (Hq : forallb (fun b => b) (fst (exec_queries (sample_conn "postgresql" false)
                  (update_queries sample_catalog sample_pipe) true false)) = false)
    by (vm_compute; reflexivity).
  split; [exact Hq|].
  assert (Hadd : get_add_columns_queries sample_catalog (sample_conn "postgresql" false)
                   sample_db sample_pipe sample_frame <> None) by (vm_compute; discriminate).
  pose proof (sync_update_failure_withholds_unseen sample_env sample_catalog
                (sample_conn "postgresql" false) sample_db sample_pipe sample_frame
                sample_frame sample_frame sample_frame eq_refl Hadd eq_refl eq_refl Hq) as H.
  cbv zeta.
  destruct (sync_pipe sample_env sample_catalog (sample_conn "postgresql" false)
              sample_db sample_pipe (Some sample_frame) true) as [[out db'] evs].
  destruct H as [[msg Hm] Hw]. simpl. split; [exists msg; exact Hm|exact Hw].
Defined.

Lemma sync_continues_after_reconcile_failure_witness :
  let qs := [add_columns_statement sample_catalog (sample_conn "postgresql" false) sample_pipe
               [("value", "float64")]] in
  get_add_columns_queries sample_catalog (sample_conn "postgresql" false) sample_db sample_pipe
    sample_frame_wide = Some qs /\
  existsb negb (fst (exec_queries (sample_conn "postgresql" false) qs false false)) = true /\
  let r := sync_pipe sample_env sample_catalog (sample_conn "postgresql" false) sample_db
             sample_pipe (Some sample_frame_wide) true in
  (exists msg, fst (fst r) = Returned (false, msg) /\ snd r = [])
  \/ exists db1 evs1, db_tables db1 = db_tables sample_db /\
       (exists s, In s qs /\ In (EvWarn ("Failed to execute query:" ++ nl ++ s)) evs1) /\
       r = sync_tail sample_env sample_catalog (sample_conn "postgresql" false) db1 sample_pipe
             sample_frame_wide true false evs1.
Proof.
  cbv zeta.
  assert (Hadd : get_add_columns_queries sample_catalog (sample_conn "postgresql" false) sample_db
                   sample_pipe sample_frame_wide
                 = Some [add_columns_statement sample_catalog (sample_conn "postgresql" false)
                           sample_pipe [("value", "float64")]]) by (vm_compute; reflexivity).
  assert (Hf : existsb negb (fst (exec_queries (sample_conn "postgresql" false)
                 [add_columns_statement sample_catalog (sample_conn "postgresql" false)
                    sample_pipe [("value", "float64")]] false false)) = true)
    by (vm_compute; reflexivity).
  split; [exact Hadd|split; [exact Hf|]].
  exact (sync_continues_after_reconcile_failure sample_env sample_catalog
           (sample_conn "postgresql" false) sample_db sample_pipe sample_frame_wide true _
           eq_refl Hadd ltac:(discriminate) Hf).
Defined.

Lemma drop_plan_single_rebuild_witness :
  drop_is_hypertable sample_catalog (sample_conn "timescaledb" true) sample_pipe = true /\
  let plan := get_drop_index_queries sample_catalog (sample_conn "timescaledb" true)
                sample_db sample_pipe in
  PyDict.get "datetime" plan
    = Some (nuke_queries sample_catalog (sample_conn "timescaledb" true) sample_db sample_pipe) /\
  PyDict.get "id" plan = Some ["DROP INDEX ix_station"] /\
  PyDict.get "value" plan = Some ["DROP INDEX ix_value"].
Proof.
  split; [reflexivity|].
  destruct (drop_plan_single_rebuild sample_catalog (sample_conn "timescaledb" true) sample_db
              sample_pipe ltac:(vm_compute; repeat constructor; simpl; intuition discriminate)
              eq_refl eq_refl eq_refl)
    as (_ & _ & Hfirst & Hothers & _).
  split; [exact Hfirst|].
  split; apply Hothers; try reflexivity; discriminate.
Defined.


Lemma edit_pipe_patch_spec_witness :
  get_pipe_id sample_pipe sample_db = Some 1 /\
  let merged := apply_patch_to_config (fetch_parameters sample_db sample_pipe)
                  (parameters sample_pipe) in
  snd (edit_pipe true sample_db sample_pipe true) = set_parameters 1 merged sample_db /\
  fetch_parameters (set_parameters 1 merged sample_db) sample_pipe
  = JObj [("tags", JList [JStr "x"])].
Proof.
  split; [reflexivity|].
  destruct (edit_pipe_patch_spec true sample_db sample_pipe true) as (_ & _ & H).
  destruct (H 1 eq_refl eq_refl eq_refl) as [He Hf].
  cbv zeta. rewrite He, Hf. split; reflexivity.
Defined.

(** * Further properties *)

(** ** Registry lemmas *)

Lemma max_id_ge rs r : In r rs -> pipe_id r <= max_id rs.
Proof.
  induction rs as [|r' rs IH]; simpl; [contradiction|].
  intros [<-|H]; [lia|specialize (IH H); lia].
Qed.

Lemma find_app_none {A} (f : A -> bool) l1 l2 :
  find f l1 = None -> find f (l1 ++ l2) = find f l2.
Proof.
  induction l1 as [|x l1 IH]; simpl; [reflexivity|].
  destruct (f x); [discriminate|exact IH].
Qed.

Lemma find_id_fresh (rs : list RegRow) row :
  (forall r, In r rs -> pipe_id r < pipe_id row) ->
  find (fun r => Nat.eqb (pipe_id r) (pipe_id row)) (rs ++ [row]) = Some row.
Proof.
  induction rs as [|r rs IH]; simpl; intros H.
  - rewrite Nat.eqb_refl. reflexivity.
  - assert (Hr := H r (or_introl eq_refl)).
    destruct (Nat.eqb (pipe_id r) (pipe_id row)) eqn:E; [apply Nat.eqb_eq in E; lia|].
    apply IH. intros r' Hr'. apply H. right. exact Hr'.
Qed.

Lemma row_has_keys_self p id params :
  row_has_keys (connector_keys p) (metric_key p) (location_key p)
    {| pipe_id := id; r_connector_keys := connector_keys p; r_metric_key := metric_key p;
       r_location_key := location_key p; r_parameters := params |} = true.
Proof.
  unfold row_has_keys; simpl. rewrite !String.eqb_refl.
  destruct (location_key p); simpl; [rewrite String.eqb_refl|]; reflexivity.
Qed.

(** X1: registering an unregistered pipe (the insert succeeding) succeeds and
    reports the registration of the id under which looking the pipe up
    afterwards finds it; the parameters read back are the pipe's parameters;
    no table changes; a second registration of the same pipe fails with the
    already-registered message and changes nothing. *)
Theorem register_pipe_then_lookup : forall db pipe,
  get_pipe_id pipe db = None ->
  let '(res, db', evs) := register_pipe true db pipe in
  fst res = true /\
  (exists id, get_pipe_id pipe db' = Some id /\ evs = [EvRegister id]) /\
  fetch_parameters db' pipe = parameters pipe /\
  db_tables db' = db_tables db /\
  (forall ok, register_pipe ok db' pipe
              = ((false, show_pipe pipe ++ " is already registered."), db', [])).
Proof.
  intros db pipe Hnone. unfold register_pipe at 1. rewrite Hnone.
  set (row := {| pipe_id := S (max_id (db_registry db)); r_connector_keys := connector_keys pipe;
                 r_metric_key := metric_key pipe; r_location_key := location_key pipe;
                 r_parameters := parameters pipe |}).
  assert (Hfresh : forall r, In r (db_registry db) -> pipe_id r < pipe_id row).
  { intros r Hr. simpl. pose proof (max_id_ge _ _ Hr). lia. }
  assert (Hid : get_pipe_id pipe {| db_registry := (db_registry db ++ [row])%list;
                                    db_tables := db_tables db |} = Some (pipe_id row)).
  { unfold get_pipe_id in *; simpl.
    destruct (find _ (db_registry db)) eqn:F; [discriminate|].
    rewrite (find_app_none _ _ _ F). simpl. unfold row. rewrite row_has_keys_self. reflexivity. }
  split; [reflexivity|]. split; [|split; [|split]].
  - exists (pipe_id row). split; [exact Hid|reflexivity].
  - unfold fetch_parameters. rewrite Hid. cbv beta iota. cbn [db_registry].
    rewrite (find_id_fresh _ _ Hfresh). reflexivity.
  - reflexivity.
  - intros ok. unfold register_pipe. rewrite Hid. reflexivity.
Qed.

Lemma register_pipe_then_lookup_witness :
  get_pipe_id sample_pipe tagged_db = None /\
  fetch_parameters (snd (fst (register_pipe true tagged_db sample_pipe))) sample_pipe
  = JObj [("tags", JList [JStr "x"])].
Proof.
  split; [reflexivity|].
  pose proof (register_pipe_then_lookup tagged_db sample_pipe eq_refl) as H.
  destruct (register_pipe true tagged_db sample_pipe) as [[res db'] evs].
  destruct H as (_ & _ & Hp & _). exact Hp.
Defined.

Lemma get_pipe_id_append db pipe id params tabs :
  get_pipe_id pipe db = None ->
  get_pipe_id pipe {| db_registry := (db_registry db ++
                        [{| pipe_id := id; r_connector_keys := connector_keys pipe;
                            r_metric_key := metric_key pipe; r_location_key := location_key pipe;
                            r_parameters := params |}])%list;
                      db_tables := tabs |} = Some id.
Proof.
  unfold get_pipe_id; simpl. destruct (find _ (db_registry db)) eqn:F; [discriminate|].
  intros _. rewrite (find_app_none _ _ _ F). simpl. rewrite row_has_keys_self. reflexivity.
Qed.

Lemma get_pipe_id_to_sql_effect pipe name df ok db :
  get_pipe_id pipe (to_sql_effect name df ok db) = get_pipe_id pipe db.
Proof. unfold to_sql_effect. destruct (ok && negb (table_exists name db)); reflexivity. Qed.

Lemma pipe_exists_to_sql_effect pipe df ok db :
  pipe_exists pipe (to_sql_effect (target pipe) df ok db) = ok || pipe_exists pipe db.
Proof.
  unfold pipe_exists, to_sql_effect. destruct ok; simpl; [|reflexivity].
  destruct (table_exists (target pipe) db) eqn:E; simpl; [exact E|].
  unfold table_exists, PyDict.mem in *; simpl.
  destruct (PyDict.get (target pipe) (db_tables db)) eqn:G; [discriminate|].
  induction (db_tables db) as [|[k v] t IH]; simpl in *.
  - rewrite String.eqb_refl. reflexivity.
  - destruct (String.eqb (target pipe) k); [discriminate|]. apply IH; auto.
Qed.

(** X2: [sync] ends at a failed registration: an unregistered pipe whose
    registry insert fails gets [Failed to register ...], and a pipe whose id
    is 0 (falsy, so [sync] tries to register it again) gets
    [... is already registered.]; in both cases nothing is written and no
    other step runs. *)
Theorem sync_stops_on_registration_failure : forall env cat conn db pipe df check_existing,
  (get_pipe_id pipe db = None -> insert_ok env = false ->
   sync_pipe env cat conn db pipe (Some df) check_existing
   = (Returned (false, "Failed to register " ++ show_pipe pipe ++ "."), db, [])) /\
  (get_pipe_id pipe db = Some 0 ->
   sync_pipe env cat conn db pipe (Some df) check_existing
   = (Returned (false, show_pipe pipe ++ " is already registered."), db, [])).
Proof.
  intros env cat conn db pipe df check_existing. split.
  - intros H Hi. unfold sync_pipe, sync_register, register_pipe. rewrite H, Hi. reflexivity.
  - intros H. unfold sync_pipe, sync_register, register_pipe. rewrite H. reflexivity.
Qed.

Lemma sync_stops_on_registration_failure_witness :
  get_pipe_id sample_pipe_no_dt tagged_db = None /\
  sync_pipe {| filter_existing := fun f => (f, None, f); to_sql := fun _ _ => (true, "ok");
               insert_ok := false |}
            sample_catalog (sample_conn "postgresql" true) tagged_db sample_pipe_no_dt
            (Some sample_frame) true
  = (Returned (false, "Failed to register " ++ show_pipe sample_pipe_no_dt ++ "."), tagged_db, []).
Proof.
  split; [reflexivity|].
  exact (proj1 (sync_stops_on_registration_failure
                  {| filter_existing := fun f => (f, None, f); to_sql := fun _ _ => (true, "ok");
                     insert_ok := false |}
                  sample_catalog (sample_conn "postgresql" true) tagged_db sample_pipe_no_dt
                  sample_frame true) eq_refl eq_refl).
Defined.

(** X3: the first sync of a new pipe (unregistered, no table; the index
    planner not raising) registers it, skips the existing-row fetch, writes
    the batch, creates the indices, and reports [Inserted n, updated 0 rows.]
    exactly when the write succeeded (else the writer's message), whatever
    the outcome of the index statements. *)
Theorem sync_first_sync_of_new_pipe : forall env cat conn db pipe df check_existing,
  get_pipe_id pipe db = None -> insert_ok env = true -> pipe_exists pipe db = false ->
  create_indices cat conn pipe <> None ->
  let '(out, db', evs) := sync_pipe env cat conn db pipe (Some df) check_existing in
  out = (if fst (to_sql env (target pipe) df)
         then Returned (true, "Inserted " ++ nat_to_string (List.length (fr_rows df))
                              ++ ", updated 0 rows.")
         else Returned (false, snd (to_sql env (target pipe) df))) /\
  (exists id, get_pipe_id pipe db' = Some id) /\
  In EvCreateIndices evs /\ ~ In EvFilterExisting evs.
Proof.
  intros env cat conn db pipe df check_existing Hnone Hins Hex Hci.
  unfold sync_pipe, sync_register, register_pipe. rewrite Hnone, Hins.
  cbv beta iota zeta. cbn [fst negb].
  set (db1 := {| db_registry := _; db_tables := db_tables db |}).
  assert (Hid : get_pipe_id pipe db1 = Some (S (max_id (db_registry db)))).
  { apply get_pipe_id_append. exact Hnone. }
  assert (Hex1 : pipe_exists pipe db1 = false) by exact Hex.
  rewrite Hex1. cbn [negb]. unfold sync_tail, partition. cbv beta iota zeta.
  unfold insert_unseen.
  destruct (create_indices cat conn pipe) as [[b cevs]|] eqn:C; [|contradiction].
  cbv beta iota zeta.
  destruct (to_sql env (target pipe) df) as [ok msg] eqn:T. cbn [fst snd].
  destruct ok; cbv beta iota zeta; cbn [fst snd negb];
  (split; [reflexivity|]).
  all: split; [|split].
  all: try (exists (S (max_id (db_registry db))); rewrite get_pipe_id_to_sql_effect; exact Hid).
  all: try (apply in_or_app; right; left; reflexivity).
  all: intros H; pose proof (create_indices_side cat conn pipe b cevs C) as S;
    rewrite Forall_forall in S;
    repeat (apply in_app_or in H as [H|H]); simpl in H;
      repeat destruct H as [H|H]; try discriminate; try contradiction;
    exact (S _ H).
Qed.

Lemma sync_first_sync_of_new_pipe_witness :
  create_indices sample_catalog (sample_conn "postgresql" false) sample_pipe_no_dt <> None /\
  let r := sync_pipe sample_env sample_catalog (sample_conn "postgresql" false) tagged_db
             sample_pipe_no_dt (Some sample_frame) true in
  fst (fst r) = Returned (true, "Inserted 1, updated 0 rows.") /\
  In EvCreateIndices (snd r).
Proof.
  assert (Hci : create_indices sample_catalog (sample_conn "postgresql" false) sample_pipe_no_dt
                <> None) by (vm_compute; discriminate).
  split; [exact Hci|].
  pose proof (sync_first_sync_of_new_pipe sample_env sample_catalog (sample_conn "postgresql" false)
                tagged_db sample_pipe_no_dt sample_frame true eq_refl eq_refl eq_refl Hci) as H.
  cbv zeta.
  destruct (sync_pipe sample_env sample_catalog (sample_conn "postgresql" false) tagged_db
              sample_pipe_no_dt (Some sample_frame) true) as [[out db'] evs].
  destruct H as (Ho & _ & He & _). simpl. split; [exact Ho|exact He].
Defined.

(** ** Deleting a pipe *)

Lemma drop_pipe_facts cat conn db pipe :
  let '(res, db', _) := drop_pipe cat conn db pipe in
  db'.(db_registry) = db.(db_registry) /\
  (fst res = true -> table_exists pipe.(target) db' = false
                     /\ table_exists ("_" ++ pipe.(target)) db' = false).
Proof.
  unfold drop_pipe. cbv beta zeta.
  set (t := target pipe) in *. set (tt := "_" ++ t) in *.
  set (s1 := "DROP TABLE " ++ sql_item_name cat t (flavor conn)) in *.
  set (s2 := "DROP TABLE " ++ sql_item_name cat tt (flavor conn)) in *.
  assert (Hne : tt <> t) by apply underscore_neq.
  assert (Hsame := remove_table_same). assert (Hother := remove_table_other).
  destruct (table_exists t db) eqn:Et; [destruct (exec_ok conn s1) eqn:D1|]; cbv beta iota.
  - destruct (table_exists tt (remove_table t db)) eqn:Ett;
      [destruct (exec_ok conn s2) eqn:D2|]; cbv beta iota; simpl fst;
      split; intros; auto; try discriminate;
      repeat rewrite Hother by auto; auto.
  - destruct (table_exists tt db) eqn:Ett; cbv beta iota; simpl fst;
      split; intros; auto; discriminate.
  - destruct (table_exists tt db) eqn:Ett;
      [destruct (exec_ok conn s2) eqn:D2|]; cbv beta iota; simpl fst;
      split; intros; auto; try discriminate;
      repeat rewrite Hother by auto; auto.
Qed.

Lemma delete_pipe_facts cat conn delete_ok db pipe :
  let '(res, db', _) := delete_pipe cat conn delete_ok db pipe in
  (fst res = true ->
   table_exists (target pipe) db' = false /\ table_exists ("_" ++ target pipe) db' = false /\
   exists id, get_pipe_id pipe db = Some (S id) /\
     db_registry db' = filter (fun r => negb (Nat.eqb (pipe_id r) (S id))) (db_registry db)) /\
  (fst res = false -> db_registry db' = db_registry db).
Proof.
  unfold delete_pipe.
  pose proof (drop_pipe_facts cat conn db pipe) as F.
  destruct (drop_pipe cat conn db pipe) as [[res1 db1] evs].
  destruct F as [Hreg Hdrop].
  assert (Hid : get_pipe_id pipe db1 = get_pipe_id pipe db) by (unfold get_pipe_id; rewrite Hreg; reflexivity).
  destruct (fst res1) eqn:R1; cbn [negb]; cbv iota.
  - destruct (Hdrop eq_refl) as [T1 T2]. rewrite Hid.
    destruct (get_pipe_id pipe db) as [[|id]|];
      [split; [discriminate|auto]| |split; [discriminate|auto]].
    destruct delete_ok; cbn [fst]; split; try discriminate; auto.
    intros _. unfold table_exists in *. cbn [db_tables]. split; [exact T1|split; [exact T2|]].
    exists id. split; [reflexivity|]. cbn [db_registry]. rewrite Hreg. reflexivity.
  - rewrite R1. split; [discriminate|auto].
Qed.

(** X4: [delete_pipe] removes the pipe's registration only when everything
    succeeds: then neither the pipe's table nor ['_' + target] remains, the
    pipe had a (non-zero) id, and exactly the registry rows with that id are
    gone; when it fails (drop failed, no id, or the delete failed) the
    registry is unchanged. *)
Theorem delete_pipe_spec : forall cat conn delete_ok db pipe,
  let '(res, db', _) := delete_pipe cat conn delete_ok db pipe in
  (fst res = true ->
   table_exists (target pipe) db' = false /\ table_exists ("_" ++ target pipe) db' = false /\
   exists id, get_pipe_id pipe db = Some (S id) /\
     db_registry db' = filter (fun r => negb (Nat.eqb (pipe_id r) (S id))) (db_registry db)) /\
  (fst res = false -> db_registry db' = db_registry db).
Proof. intros. exact (delete_pipe_facts cat conn delete_ok db pipe). Qed.

Lemma find_filter_none {A} (f g : A -> bool) l :
  (forall x, In x l -> f x = true -> g x = false) -> find f (filter g l) = None.
Proof.
  induction l as [|x l IH]; simpl; intros H; [reflexivity|].
  destruct (g x) eqn:G; simpl.
  - destruct (f x) eqn:F; [rewrite (H x (or_introl eq_refl) F) in G; discriminate|].
    apply IH. intros y Hy. apply H. right. exact Hy.
  - apply IH. intros y Hy. apply H. right. exact Hy.
Qed.

(** X5: when every registry row with the pipe's keys carries the pipe's id
    (one row per identity, as the registry keeps it), a successful
    [delete_pipe] leaves the pipe unregistered: its id lookup finds nothing,
    so it can be registered again. *)
Theorem delete_pipe_unregisters : forall cat conn db pipe,
  (forall r, In r (db_registry db) ->
     row_has_keys (connector_keys pipe) (metric_key pipe) (location_key pipe) r = true ->
     get_pipe_id pipe db = Some (pipe_id r)) ->
  let '(res, db', _) := delete_pipe cat conn true db pipe in
  fst res = true -> get_pipe_id pipe db' = None.
Proof.
  intros cat conn db pipe Huniq.
  pose proof (delete_pipe_facts cat conn true db pipe) as F.
  destruct (delete_pipe cat conn true db pipe) as [[res db'] evs].
  intros Hres. destruct F as [F _]. destruct (F Hres) as (_ & _ & id & Hid & Hreg).
  unfold get_pipe_id. rewrite Hreg, find_filter_none; [reflexivity|].
  intros r Hr Hk. rewrite Hid in Huniq. specialize (Huniq r Hr Hk).
  injection Huniq as E. rewrite <- E, Nat.eqb_refl. reflexivity.
Qed.

Lemma delete_pipe_unregisters_witness :
  let r := delete_pipe sample_catalog (sample_conn "postgresql" true) true sample_db sample_pipe in
  fst (fst (fst r)) = true /\ get_pipe_id sample_pipe (snd (fst r)) = None.
Proof.
  pose proof (delete_pipe_unregisters sample_catalog (sample_conn "postgresql" true) sample_db
                sample_pipe) as H.
  assert (Hu : forall r, In r (db_registry sample_db) ->
     row_has_keys (connector_keys sample_pipe) (metric_key sample_pipe) (location_key sample_pipe) r
     = true -> get_pipe_id sample_pipe sample_db = Some (pipe_id r)).
  { intros r [<-|[]] _. reflexivity. }
  specialize (H Hu). cbv zeta.
  destruct (delete_pipe sample_catalog (sample_conn "postgresql" true) true sample_db sample_pipe)
    as [[res db'] evs] eqn:E.
  vm_compute in E. injection E as <- <- _. split; [reflexivity|]. apply H. reflexivity.
Defined.

(** ** Executing the index plans *)

Lemma exec_queries_silent conn qs :
  exec_queries conn qs false true = (map (exec_ok conn) qs, map EvExec qs).
Proof.
  induction qs as [|s qs IH]; simpl; [reflexivity|].
  rewrite IH. destruct (exec_ok conn s); reflexivity.
Qed.

Lemma forallb_map_id (f : string -> bool) l : forallb (fun b => b) (map f l) = forallb f l.
Proof. induction l; simpl; congruence. Qed.

Lemma exec_plan_fold conn (plan : list (string * list string)) b E :
  fold_left
    (fun acc ixq =>
       let '(rs, evs) := exec_queries conn (snd ixq) false true in
       (fst acc && forallb (fun b => b) rs, (snd acc ++ evs)%list))
    plan (b, E)
  = (b && forallb (exec_ok conn) (concat (map snd plan)),
     (E ++ map EvExec (concat (map snd plan)))%list).
Proof.
  revert b E. induction plan as [|[k qs] plan IH]; intros b E; simpl.
  - rewrite andb_true_r, app_nil_r. reflexivity.
  - rewrite exec_queries_silent. simpl. rewrite IH, forallb_map_id, forallb_app, andb_assoc,
      map_app, app_assoc. reflexivity.
Qed.

(** X6: [drop_indices] on a pipe with columns executes, silently and in plan
    order, exactly the statements of the drop plan's entries for the
    selected roles (every role when no selection is given), and succeeds
    exactly when each of them succeeds; for a pipe whose table does not
    exist it executes nothing and succeeds. *)
Theorem drop_indices_runs_plan : forall cat conn db pipe sel,
  columns pipe <> [] ->
  let stmts := concat (map snd (filter (fun ixq => match sel with
                                                   | None => true
                                                   | Some l => existsb (String.eqb (fst ixq)) l
                                                   end)
                                       (get_drop_index_queries cat conn db pipe))) in
  drop_indices cat conn db pipe sel = (forallb (exec_ok conn) stmts, map EvExec stmts) /\
  (pipe_exists pipe db = false -> drop_indices cat conn db pipe sel = (true, [])).
Proof.
  intros cat conn db pipe sel Hc stmts.
  assert (H : drop_indices cat conn db pipe sel = (forallb (exec_ok conn) stmts, map EvExec stmts)).
  { unfold drop_indices. destruct (columns pipe); [contradiction|].
    rewrite exec_plan_fold. reflexivity. }
  split; [exact H|]. intros Ex. rewrite H. unfold stmts, get_drop_index_queries. rewrite Ex.
  reflexivity.
Qed.

Lemma drop_indices_runs_plan_witness :
  drop_indices sample_catalog (sample_conn "postgresql" true) sample_db sample_pipe (Some ["id"])
  = (true, [EvExec "DROP INDEX ix_station"]).
Proof.
  rewrite (proj1 (drop_indices_runs_plan sample_catalog (sample_conn "postgresql" true) sample_db
                    sample_pipe (Some ["id"]) ltac:(discriminate))).
  vm_compute. reflexivity.
Defined.

(** X7: [create_indices] on a pipe with columns, for a flavor other than
    citus and when the planner does not raise, executes silently every
    statement of the create plan in plan order and reports success exactly
    when each of them succeeds. *)
Theorem create_indices_runs_plan : forall cat conn pipe plan,
  String.eqb (flavor conn) "citus" = false ->
  columns pipe <> [] -> get_create_index_queries cat conn pipe = Some plan ->
  create_indices cat conn pipe
  = Some (forallb (exec_ok conn) (concat (map snd plan)), map EvExec (concat (map snd plan))).
Proof.
  intros cat conn pipe plan _ Hc Hp. unfold create_indices.
  destruct (columns pipe); [contradiction|]. rewrite Hp, exec_plan_fold. reflexivity.
Qed.

Lemma create_indices_runs_plan_witness :
  create_indices sample_catalog (sample_conn "postgresql" true) sample_pipe_no_dt
  = Some (true, [EvExec "CREATE INDEX ix_station ON weather (station)"]).
Proof.
  rewrite (create_indices_runs_plan sample_catalog (sample_conn "postgresql" true) sample_pipe_no_dt
             [("station", ["CREATE INDEX ix_station ON weather (station)"])]
             eq_refl ltac:(discriminate) ltac:(vm_compute; reflexivity)).
  reflexivity.
Defined.

(** ** The create-index planner *)

Lemma mem_set {A} c k (v : A) d : PyDict.mem c (PyDict.set k v d) = String.eqb c k || PyDict.mem c d.
Proof.
  destruct (String.eqb c k) eqn:E; simpl.
  - apply String.eqb_eq in E; subst c. unfold PyDict.mem. rewrite PyDictFacts.get_set_eq. reflexivity.
  - apply String.eqb_neq in E. unfold PyDict.mem. rewrite PyDictFacts.get_set_neq by congruence.
    reflexivity.
Qed.

Lemma in_set {A} c k (v w : A) d : In (c, w) (PyDict.set k v d) -> (c = k /\ w = v) \/ In (c, w) d.
Proof.
  induction d as [|[k' v'] d IH]; simpl.
  - intros [H|[]]. injection H as -> ->. auto.
  - destruct (String.eqb k k') eqn:E; simpl.
    + intros [H|H]; [injection H as -> ->; auto|auto].
    + intros [H|H]; [auto|]. destruct (IH H); auto.
Qed.

Section PlannerFold.
Variables (A C : Type) (F : option (list (string * list string)) -> A -> option (list (string * list string))).
Variables (G : A -> option string) (v : A -> string -> list string).
Hypothesis HF0 : forall kv, F None kv = None.
Hypothesis HF1 : forall iq kv,
  F (Some iq) kv = match G kv with None => None | Some c => Some (PyDict.set c (v kv c) iq) end.

Lemma planner_fold_none l : fold_left F l None = None.
Proof. induction l; simpl; [reflexivity|]. rewrite HF0. exact IHl. Qed.

Lemma planner_fold_raises l iq :
  fold_left F l (Some iq) = None <-> exists kv, In kv l /\ G kv = None.
Proof.
  revert iq. induction l as [|kv l IH]; intros iq; simpl.
  - split; [discriminate|intros (? & [] & _)].
  - rewrite HF1. destruct (G kv) as [c|] eqn:E.
    + rewrite IH. split; intros (kv' & Hin & Hg); [eauto|].
      destruct Hin as [<-|Hin]; [congruence|eauto].
    + rewrite planner_fold_none. split; [intros _; eauto|reflexivity].
Qed.

Lemma planner_fold_keys l iq r :
  fold_left F l (Some iq) = Some r ->
  forall c, PyDict.mem c r = true <-> PyDict.mem c iq = true \/ exists kv, In kv l /\ G kv = Some c.
Proof.
  revert iq. induction l as [|kv l IH]; intros iq; simpl.
  - intros H; injection H as <-. intros c. split; [auto|intros [H|(? & [] & _)]; exact H].
  - rewrite HF1. destruct (G kv) as [c'|] eqn:E; [|rewrite planner_fold_none; discriminate].
    intros H c. rewrite (IH _ H c), mem_set, orb_true_iff, String.eqb_eq.
    split.
    + intros [[->|Hm]|(kv' & Hin & Hg)]; eauto.
    + intros [Hm|(kv' & [<-|Hin] & Hg)]; eauto. left; left; congruence.
Qed.

Lemma planner_fold_values (P : list string -> Prop) l iq r :
  fold_left F l (Some iq) = Some r ->
  (forall c qs, In (c, qs) iq -> P qs) -> (forall kv c, P (v kv c)) ->
  forall c qs, In (c, qs) r -> P qs.
Proof.
  revert iq. induction l as [|kv l IH]; intros iq; simpl.
  - intros H; injection H as <-. auto.
  - rewrite HF1. destruct (G kv) as [c'|] eqn:E; [|rewrite planner_fold_none; discriminate].
    intros H Hiq Hv. apply (IH _ H); [|exact Hv].
    intros c qs Hin. apply in_set in Hin as [[_ ->]|Hin]; eauto.
Qed.
End PlannerFold.

Lemma prefix_app s t : String.prefix s (s ++ t) = true.
Proof.
  induction s; simpl; [destruct t; reflexivity|].
  destruct (ascii_dec a a); [exact IHs|contradiction].
Qed.

Lemma in_other_roles (kv : string * string) l :
  In kv (filter (fun kv0 : string * string => negb ((fst kv0 =? "datetime") || (fst kv0 =? "id"))) l)
  <-> In kv l /\ fst kv <> "datetime" /\ fst kv <> "id".
Proof.
  rewrite filter_In, negb_true_iff, orb_false_iff, !String.eqb_neq. tauto.
Qed.

Ltac open_create_plan H :=
  unfold get_create_index_queries in H; cbv zeta in H;
  match type of H with
  | fold_left ?F ?l (Some ?iq) = _ => set (iq1 := iq) in H; set (Fq := F) in H
  end.

(** X8: [get_create_index_queries] raises ([KeyError]) exactly when some
    index role other than [datetime] and [id] has no column in
    [pipe.columns]. *)
Theorem create_index_queries_raises : forall cat conn pipe,
  get_create_index_queries cat conn pipe = None <->
  exists r ix, In (r, ix) (indices pipe) /\ r <> "datetime" /\ r <> "id" /\
               PyDict.get r (columns pipe) = None.
Proof.
  intros cat conn pipe. unfold get_create_index_queries. cbv zeta.
  match goal with |- context [fold_left ?F ?l (Some ?iq)] => set (iq1 := iq); set (Fq := F) end.
  erewrite planner_fold_raises; [|intros; reflexivity|intros; reflexivity]. cbv beta.
  split.
  - intros ([r ix] & Hin & Hg). apply in_other_roles in Hin as (Hin & H1 & H2). eauto 6.
  - intros (r & ix & Hin & H1 & H2 & Hg). exists (r, ix). split; [|exact Hg].
    apply in_other_roles. auto.
Qed.

Lemma create_index_queries_raises_witness :
  get_create_index_queries sample_catalog (sample_conn "postgresql" true) sample_pipe = None.
Proof.
  apply (proj2 (create_index_queries_raises sample_catalog (sample_conn "postgresql" true)
                  sample_pipe)).
  exists "value", "ix_value".
  split; [simpl; auto 6|]. split; [discriminate|]. split; [discriminate|]. reflexivity.
Defined.

(** X9: when [get_create_index_queries] returns a plan, its keys are exactly
    the [datetime] column, the [id] column (unless the flavor is timescaledb
    with space partitioning), and the column of every other index role. *)
Theorem create_index_queries_keys : forall cat conn pipe plan,
  get_create_index_queries cat conn pipe = Some plan ->
  forall c, PyDict.mem c plan = true <->
   PyDict.get "datetime" (columns pipe) = Some c \/
   (PyDict.get "id" (columns pipe) = Some c /\
    negb (String.eqb (flavor conn) "timescaledb" && space_partition cat) = true) \/
   exists r ix, In (r, ix) (indices pipe) /\ r <> "datetime" /\ r <> "id" /\
     PyDict.get r (columns pipe) = Some c.
Proof.
  intros cat conn pipe plan Hp c. open_create_plan Hp.
  eapply planner_fold_keys with (c := c) in Hp; [|intros; reflexivity|intros; reflexivity].
  rewrite Hp. cbv beta.
  assert (Hiq : PyDict.mem c iq1 = true <-> PyDict.get "datetime" (columns pipe) = Some c \/
     (PyDict.get "id" (columns pipe) = Some c /\
      negb (String.eqb (flavor conn) "timescaledb" && space_partition cat) = true)).
  { unfold iq1. destruct (PyDict.get "id" (columns pipe)) as [i|];
      destruct (PyDict.get "datetime" (columns pipe)) as [d|]; simpl option_map; cbv beta iota;
      destruct (String.eqb (flavor conn) "timescaledb"), (space_partition cat),
        (String.eqb (flavor conn) "citus"); cbv beta iota; rewrite ?mem_set;
      unfold PyDict.mem at 1; simpl; repeat rewrite orb_true_iff; repeat rewrite String.eqb_eq;
      intuition congruence. }
  rewrite Hiq. split.
  - intros [H|([r ix] & Hin & Hg)]; [tauto|].
    apply in_other_roles in Hin as (Hin & H1 & H2). right; right. eauto 6.
  - intros [H|[H|(r & ix & Hin & H1 & H2 & Hg)]]; [tauto|tauto|].
    right. exists (r, ix). split; [apply in_other_roles; auto|exact Hg].
Qed.

Lemma create_index_queries_keys_witness :
  PyDict.mem "ts" (match get_create_index_queries sample_catalog (sample_conn "postgresql" true)
                           {| connector_keys := "a"; metric_key := "m"; location_key := None;
                              target := "t"; columns := [("datetime", "ts"); ("value", "v")];
                              indices := [("datetime", "ix_ts"); ("value", "ix_v")];
                              parameters := JObj [] |} with Some p => p | None => [] end) = true.
Proof.
  apply (create_index_queries_keys sample_catalog (sample_conn "postgresql" true)
           {| connector_keys := "a"; metric_key := "m"; location_key := None;
              target := "t"; columns := [("datetime", "ts"); ("value", "v")];
              indices := [("datetime", "ix_ts"); ("value", "ix_v")]; parameters := JObj [] |}
           _ eq_refl "ts").
  left. reflexivity.
Defined.

Lemma create_plan_plain_values : forall cat conn pipe plan,
  String.eqb (flavor conn) "timescaledb" = false -> String.eqb (flavor conn) "citus" = false ->
  get_create_index_queries cat conn pipe = Some plan ->
  forall c qs, In (c, qs) plan -> Forall (fun s => String.prefix "CREATE INDEX " s = true) qs.
Proof.
  intros cat conn pipe plan Hts Hci Hp. open_create_plan Hp.
  intros c qs Hin.
  eapply (planner_fold_values _ Fq (fun kv => PyDict.get (fst kv) (columns pipe)));
    [intros; reflexivity|intros; reflexivity|exact Hp| | |exact Hin].
  - unfold iq1. rewrite Hts, Hci.
    destruct (PyDict.get "id" (columns pipe)) as [i|];
      destruct (PyDict.get "datetime" (columns pipe)) as [d|]; simpl option_map; cbv beta iota;
      intros c' qs' H';
      repeat match goal with
             | H : In _ (PyDict.set _ _ _) |- _ => apply in_set in H as [[_ ->]|H]
             | H : In _ [] |- _ => destruct H
             end;
      repeat constructor; apply prefix_app.
  - intros kv c'. repeat constructor. apply prefix_app.
Qed.

(** X10: for a flavor other than timescaledb and citus, every statement of the
    create plan is a [CREATE INDEX] statement: no hypertable and no
    distributed table is ever created. *)
Theorem create_index_queries_plain_flavors : forall cat conn pipe plan,
  String.eqb (flavor conn) "timescaledb" = false -> String.eqb (flavor conn) "citus" = false ->
  get_create_index_queries cat conn pipe = Some plan ->
  forall c qs, In (c, qs) plan -> Forall (fun s => String.prefix "CREATE INDEX " s = true) qs.
Proof. exact create_plan_plain_values. Qed.

Lemma create_index_queries_plain_flavors_witness :
  Forall (fun s => String.prefix "CREATE INDEX " s = true)
         ["CREATE INDEX ix_station ON weather (station)"].
Proof.
  apply (create_index_queries_plain_flavors sample_catalog (sample_conn "postgresql" true)
           sample_pipe_no_dt [("station", ["CREATE INDEX ix_station ON weather (station)"])]
           eq_refl eq_refl ltac:(vm_compute; reflexivity) "station").
  left. reflexivity.
Defined.

(** ** The drop planner without a hypertable *)

Lemma set_absent {A} k (v : A) d : ~ In k (PyDict.keys d) -> PyDict.set k v d = (d ++ [(k, v)])%list.
Proof.
  induction d as [|[k' v'] d IH]; simpl; intros Hn; [reflexivity|].
  destruct (String.eqb k k') eqn:E; [apply String.eqb_eq in E; subst; tauto|].
  rewrite IH; [reflexivity|tauto].
Qed.

Lemma update_fresh {A} (e d : list (string * A)) :
  NoDup (PyDict.keys (d ++ e)%list) -> PyDict.update d e = (d ++ e)%list.
Proof.
  unfold PyDict.update. revert d. induction e as [|[k v] e IH]; intros d Hnd; simpl.
  - rewrite app_nil_r. reflexivity.
  - unfold PyDict.keys in Hnd. rewrite map_app in Hnd. simpl in Hnd.
    rewrite set_absent.
    + rewrite IH; [rewrite <- app_assoc; reflexivity|].
      unfold PyDict.keys. rewrite <- app_assoc, map_app. exact Hnd.
    + intros Hin. apply (NoDup_remove_2 _ _ _ Hnd). apply in_or_app. left. exact Hin.
Qed.

Lemma filter_all {A} (f : A -> bool) l : (forall x, f x = true) -> filter f l = l.
Proof. intros H. induction l as [|x l IH]; simpl; [reflexivity|]. rewrite H, IH. reflexivity. Qed.

Lemma drop_plan_plain : forall cat conn db pipe,
  NoDup (PyDict.keys (indices pipe)) ->
  drop_is_hypertable cat conn pipe = false ->
  get_drop_index_queries cat conn db pipe
  = if pipe_exists pipe db
    then map (fun kv => (fst kv, plain_drop cat conn (snd kv))) (indices pipe)
    else [].
Proof.
  intros cat conn db pipe Hnd Hh. unfold get_drop_index_queries.
  destruct (pipe_exists pipe db); [|reflexivity]. cbn [negb]. cbv beta zeta iota.
  rewrite Hh, filter_all by reflexivity. apply update_fresh. simpl.
  unfold PyDict.keys. rewrite map_map. exact Hnd.
Qed.

(** X11: on a table that is not a hypertable, and with distinct index roles,
    [get_drop_index_queries] gives every index role, in the order of
    [pipe.get_indices()], the single statement [DROP INDEX ix]; on a table
    that does not exist it gives nothing. *)
Theorem drop_index_queries_plain : forall cat conn db pipe,
  NoDup (PyDict.keys (indices pipe)) ->
  drop_is_hypertable cat conn pipe = false ->
  get_drop_index_queries cat conn db pipe
  = if pipe_exists pipe db
    then map (fun kv => (fst kv, plain_drop cat conn (snd kv))) (indices pipe)
    else [].
Proof. exact drop_plan_plain. Qed.

Lemma drop_index_queries_plain_witness :
  get_drop_index_queries sample_catalog (sample_conn "postgresql" true) sample_db sample_pipe
  = [("datetime", ["DROP INDEX ix_ts"]); ("id", ["DROP INDEX ix_station"]);
     ("value", ["DROP INDEX ix_value"])].
Proof.
  rewrite (drop_index_queries_plain sample_catalog (sample_conn "postgresql" true) sample_db
             sample_pipe).
  - reflexivity.
  - simpl. repeat constructor; simpl; intuition discriminate.
  - reflexivity.
Defined.

(** ** The read and delete queries *)

Lemma resolve_some_bounds pipe guess s b e :
  fst (resolve_datetime pipe guess) = Some s -> datetime_bounds pipe guess b e = (b, e).
Proof.
  unfold datetime_bounds. destruct (resolve_datetime pipe guess) as [dt g]. simpl.
  intros ->. destruct b, e, g; reflexivity.
Qed.

Lemma resolve_none_bounds pipe guess b e :
  fst (resolve_datetime pipe guess) = None -> datetime_bounds pipe guess b e = (None, None).
Proof.
  unfold datetime_bounds. destruct (resolve_datetime pipe guess) as [dt g] eqn:R. simpl.
  intros ->. assert (g = true) as ->.
  { unfold resolve_datetime in R. destruct (PyDict.get "datetime" (columns pipe)) as [c|];
      [destruct (String.eqb c "")|]; inversion R; reflexivity. }
  destruct b, e; reflexivity.
Qed.

Lemma quoted_some cat conn pipe guess d :
  quoted_datetime cat conn pipe guess = Some d ->
  exists s, fst (resolve_datetime pipe guess) = Some s /\ s <> "" /\
            d = sql_item_name cat s (flavor conn).
Proof.
  unfold quoted_datetime. destruct (resolve_datetime pipe guess) as [[s|] g] eqn:R; [|discriminate].
  destruct g.
  - destruct (String.eqb s "") eqn:E; [discriminate|]. intros H; injection H as <-.
    exists s. split; [reflexivity|]. split; [apply String.eqb_neq; exact E|reflexivity].
  - intros H; injection H as <-. exists s. split; [reflexivity|]. split; [|reflexivity].
    unfold resolve_datetime in R. destruct (PyDict.get "datetime" (columns pipe)) as [c|];
      [destruct (String.eqb c "") eqn:E|]; inversion R; subst.
    apply String.eqb_neq. exact E.
Qed.

Lemma ltb_len_pos (s : string) : s <> "" -> Nat.ltb 0 (String.length s) = true.
Proof. destruct s; [contradiction|reflexivity]. Qed.

Lemma app_nonempty_r (a b : string) : b <> "" -> a ++ b <> "".
Proof. intros Hb. destruct a; simpl; [exact Hb|discriminate]. Qed.

Lemma str_app_assoc (a b c : string) : (a ++ b) ++ c = a ++ b ++ c.
Proof. induction a; simpl; congruence. Qed.

Lemma replace_fuel_nonempty f old new s :
  new <> "" -> s <> "" -> 0 < f -> replace_fuel f old new s <> "".
Proof.
  intros Hn Hs Hf. destruct f as [|f]; [lia|]. destruct s as [|c s]; [contradiction|].
  cbn [replace_fuel]. destruct (String.prefix old (String c s)); [|intros H; discriminate H].
  destruct new; [contradiction|intros H; simpl in H; discriminate H].
Qed.

(** X13: when the quoted datetime column is not a key of the table's
    columns (or there is no datetime column), [get_pipe_data] without
    [params] reads [SELECT * FROM t], whatever [begin] and [end] are: no
    datetime bound and no ordering enter the query. *)
Theorem get_pipe_data_query_unbounded :
  forall Params bw da cat conn pipe guess existing b e,
  (forall d, quoted_datetime cat conn pipe guess = Some d -> PyDict.mem d existing = false) ->
  get_pipe_data_query Params bw da cat conn pipe guess existing b e None
  = "SELECT * FROM " ++ sql_item_name cat (target pipe) (flavor conn).
Proof.
  intros Params bw da cat conn pipe guess existing b e Hd.
  unfold get_pipe_data_query. cbv zeta.
  destruct (quoted_datetime cat conn pipe guess) as [d|] eqn:Q; [rewrite (Hd d eq_refl)|];
    destruct (datetime_bounds pipe guess b e) as [b' e']; cbv beta iota;
    rewrite !andb_false_r; reflexivity.
Qed.

Lemma get_pipe_data_query_unbounded_witness :
  get_pipe_data_query string (fun p _ => p) (fun _ _ _ _ => "'t'")
    quoting_catalog (sample_conn "postgresql" true) sample_pipe None
    [("ts", "datetime64[ns]"); ("station", "int64")] (Some 1%Z) (Some 2%Z) None
  = "SELECT * FROM " ++ dquote ++ "weather" ++ dquote.
Proof.
  apply (get_pipe_data_query_unbounded string (fun p _ => p) (fun _ _ _ _ => "'t'")
           quoting_catalog (sample_conn "postgresql" true) sample_pipe None
           [("ts", "datetime64[ns]"); ("station", "int64")] (Some 1%Z) (Some 2%Z)).
  intros d H. injection H as <-. reflexivity.
Defined.

(** X14: when [begin] is given and the datetime column is known but not a
    column of the table, [get_pipe_data] with [params] puts no datetime
    condition in the query and turns the [WHERE] of [build_where] into
    [AND], right after the query's own [WHERE]. *)
Theorem get_pipe_data_query_params_only :
  forall Params bw da cat conn pipe guess existing b e p s,
  fst (resolve_datetime pipe guess) = Some s ->
  (forall d, quoted_datetime cat conn pipe guess = Some d -> PyDict.mem d existing = false) ->
  bw p true <> "" ->
  get_pipe_data_query Params bw da cat conn pipe guess existing (Some b) e (Some p)
  = "SELECT * FROM " ++ sql_item_name cat (target pipe) (flavor conn) ++ nl ++ "WHERE "
    ++ str_replace "WHERE" "AND" (bw p true).
Proof.
  intros Params bw da cat conn pipe guess existing b e p s Hs Hd Hw.
  assert (Hin : match quoted_datetime cat conn pipe guess with
                | Some d => PyDict.mem d existing | None => false end = false).
  { destruct (quoted_datetime cat conn pipe guess) as [d|]; [exact (Hd d eq_refl)|reflexivity]. }
  unfold get_pipe_data_query. cbv zeta. rewrite (resolve_some_bounds _ _ s) by exact Hs.
  cbv beta iota. rewrite Hin, !andb_false_r. cbv beta iota delta [is_some orb].
  rewrite ltb_len_pos; [rewrite !str_app_assoc; reflexivity|].
  change (str_replace "WHERE" "AND" (bw p true) <> "").
  apply replace_fuel_nonempty; [discriminate|exact Hw|].
  destruct (bw p true); [contradiction|simpl; lia].
Qed.

Lemma get_pipe_data_query_params_only_witness :
  get_pipe_data_query string (fun p w => if w then nl ++ "WHERE " ++ p else p)
    (fun _ _ _ _ => "'t'")
    sample_catalog (sample_conn "postgresql" true) sample_pipe None [] (Some 1%Z) None
    (Some "station = 1")
  = "SELECT * FROM weather" ++ nl ++ "WHERE " ++ nl ++ "AND station = 1".
Proof.
  rewrite (get_pipe_data_query_params_only string (fun p w => if w then nl ++ "WHERE " ++ p else p)
             (fun _ _ _ _ => "'t'") sample_catalog (sample_conn "postgresql" true) sample_pipe
             None [] 1%Z None "station = 1" "ts").
  - reflexivity.
  - reflexivity.
  - intros d _. reflexivity.
  - discriminate.
Defined.

Lemma resolve_none_guess pipe guess :
  fst (resolve_datetime pipe guess) = None -> resolve_datetime pipe guess = (None, true).
Proof.
  unfold resolve_datetime. destruct (PyDict.get "datetime" (columns pipe)) as [c|];
    [destruct (String.eqb c "")|]; destruct guess; simpl; intros H; try discriminate H; reflexivity.
Qed.

(** X16: when no datetime column can be determined, [clear_pipe] without
    [params] on an existing table deletes every row, whatever [begin] and
    [end] are, in one silent statement, after warning [No datetime could be
    determined ... Ignoring datetime bounds...] when a bound was given. *)
Theorem clear_pipe_unbounded_without_datetime :
  forall Params bw da cat conn db pipe guess b e,
  pipe_exists pipe db = true -> fst (resolve_datetime pipe guess) = None ->
  let s := "DELETE FROM " ++ sql_item_name cat (target pipe) (flavor conn) ++ nl
           ++ "WHERE 1 = 1" ++ nl in
  clear_pipe Params bw da cat conn db pipe guess b e None
  = ((exec_ok conn s, if exec_ok conn s then "Success" else "Failed to clear " ++ show_pipe pipe ++ "."),
     ((match b, e with
       | None, None => []
       | _, _ => [EvWarn ("No datetime could be determined for " ++ show_pipe pipe ++ "." ++ nl
                          ++ "    Ignoring datetime bounds...")]
       end) ++ [EvExec s])%list).
Proof.
  intros Params bw da cat conn db pipe guess b e Hx Hr s.
  unfold clear_pipe. rewrite Hx. cbn [negb]. cbv zeta.
  rewrite (resolve_none_bounds _ _ b e Hr).
  unfold datetime_bounds_warnings. rewrite (resolve_none_guess _ _ Hr).
  destruct b, e; reflexivity.
Qed.

Lemma clear_pipe_unbounded_without_datetime_witness :
  clear_pipe string (fun p _ => p) (fun _ _ _ _ => "'t'") sample_catalog
    (sample_conn "postgresql" true) sample_db sample_pipe_no_dt None (Some 1%Z) (Some 2%Z) None
  = ((true, "Success"),
     [EvWarn ("No datetime could be determined for " ++ show_pipe sample_pipe_no_dt ++ "." ++ nl
              ++ "    Ignoring datetime bounds...");
      EvExec ("DELETE FROM weather" ++ nl ++ "WHERE 1 = 1" ++ nl)]).
Proof.
  rewrite (clear_pipe_unbounded_without_datetime string (fun p _ => p) (fun _ _ _ _ => "'t'")
             sample_catalog (sample_conn "postgresql" true) sample_db sample_pipe_no_dt None
             (Some 1%Z) (Some 2%Z)); reflexivity.
Defined.

(** ** Key listing and editing *)

Lemma in_insert_row {A} (x r : Key * A) l : In x (insert_row r l) <-> x = r \/ In x l.
Proof.
  induction l as [|r' l IH]; simpl; [intuition congruence|].
  destruct (key_leb (fst r) (fst r')); simpl; [intuition congruence|]. rewrite IH.
  intuition congruence.
Qed.

Lemma in_sort_rows {A} (x : Key * A) l : In x (sort_rows l) <-> In x l.
Proof.
  induction l as [|r l IH]; simpl; [tauto|]. rewrite in_insert_row, IH. intuition congruence.
Qed.

(** X17: [fetch_pipes_keys] with the location key [None], [[None]] or [null]
    (and no other filter) lists the keys of exactly the registered pipes
    whose location key is NULL. *)
Theorem fetch_pipes_keys_null_location : forall db lk,
  In lk ["[None]"; "None"; "null"] ->
  exists ks, fetch_pipes_keys db [] [] [lk] [] = Some ks /\
    forall k, In k ks <-> exists r, In r (db_registry db) /\ r_location_key r = None /\ reg_key r = k.
Proof.
  intros db lk Hlk.
  assert (Hl : map (fun lk => if existsb (String.eqb lk) ["[None]"; "None"; "null"] then None else Some lk)
                 [lk] = [None]).
  { destruct Hlk as [<-|[<-|[<-|[]]]]; reflexivity. }
  unfold fetch_pipes_keys. rewrite Hl. cbv zeta. simpl separate_negation_values. cbv iota beta.
  eexists. split; [reflexivity|]. intros k.
  rewrite in_map_iff. split.
  - intros ([k' v] & Hk & Hin). simpl in Hk; subst k'.
    apply in_sort_rows, in_map_iff in Hin as (r & Hr & Hin). injection Hr as Hk _.
    apply filter_In in Hin as (Hin & Hf). exists r. split; [exact Hin|]. split; [|exact Hk].
    unfold key_column_filter in Hf. simpl in Hf.
    destruct (r_location_key r); [discriminate|reflexivity].
  - intros (r & Hin & Hn & Hk). exists (reg_key r, r_parameters r). split; [exact Hk|].
    apply in_sort_rows, in_map_iff. exists r. split; [reflexivity|].
    apply filter_In. split; [exact Hin|]. unfold key_column_filter. simpl. rewrite Hn. reflexivity.
Qed.

Lemma fetch_pipes_keys_null_location_witness :
  exists ks, fetch_pipes_keys tagged_db [] [] ["None"] [] = Some ks /\
    forall k, In k ks <-> exists r, In r (db_registry tagged_db) /\ r_location_key r = None /\
                                   reg_key r = k.
Proof.
  apply (fetch_pipes_keys_null_location tagged_db "None"). simpl. auto.
Defined.

(** X18: [edit_pipe] never touches the tables nor the keys and ids of the
    registry; it changes at most the parameters of the pipe's own row, and
    leaves the store unchanged when it fails. *)
Theorem edit_pipe_frame : forall update_ok db pipe patch,
  let '(res, db') := edit_pipe update_ok db pipe patch in
  db_tables db' = db_tables db /\
  map (fun r => (pipe_id r, reg_key r)) (db_registry db')
    = map (fun r => (pipe_id r, reg_key r)) (db_registry db) /\
  (forall id, get_pipe_id pipe db <> Some id ->
     forall r, In r (db_registry db) -> pipe_id r = id -> In r (db_registry db')) /\
  (fst res = false -> db' = db).
Proof.
  intros update_ok db pipe patch. unfold edit_pipe.
  destruct (get_pipe_id pipe db) as [id|] eqn:G.
  - destruct update_ok; cbv zeta; simpl.
    + unfold set_parameters; simpl. split; [reflexivity|]. split.
      * rewrite map_map. apply map_ext. intros r. destruct (Nat.eqb (pipe_id r) id); reflexivity.
      * split; [|discriminate]. intros id' Hne r Hin Hid. apply in_map_iff. exists r.
        split; [|exact Hin]. destruct (Nat.eqb (pipe_id r) id) eqn:E; [|reflexivity].
        apply Nat.eqb_eq in E. congruence.
    + repeat split; auto.
  - simpl. repeat split; auto.
Qed.

(** ** C4 *)

Lemma concat_plain_drop cat conn (l : list (string * string)) :
  (List.concat (PyDict.values (map (fun kv => (fst kv, plain_drop cat conn (snd kv))) l))
  = map (fun kv => ("DROP INDEX " ++ sql_item_name cat (snd kv) (flavor conn))%string) l)%list.
Proof. induction l as [|kv l IH]; simpl; [reflexivity|]. f_equal. exact IH. Qed.

Lemma forall_concat_values (P : string -> Prop) (plan : list (string * list string)) :
  (forall c qs, In (c, qs) plan -> Forall P qs) -> Forall P (List.concat (PyDict.values plan)).
Proof.
  induction plan as [|[c qs] plan IH]; simpl; intros H; [constructor|].
  apply Forall_app. split; [exact (H c qs (or_introl eq_refl))|].
  apply IH. intros c' qs' Hin. exact (H c' qs' (or_intror Hin)).
Qed.

(** C4: the schema reconciler returns no statement when the pipe's table
    does not exist, or when it exists and the batch has no new column.  When
    the table exists and the batch has new columns, the plan is, for a flavor
    other than duckdb, the single [ALTER TABLE ... ADD ...] statement of all
    the new columns; for duckdb, on a table that is not a hypertable and with
    distinct index roles, and when the create-index plan does not raise, it is
    first one [DROP INDEX] statement per index of the pipe (in the order of
    [pipe.get_indices()]), then that [ALTER TABLE] statement, then every
    statement of the create-index plan, each of which is a [CREATE INDEX]
    statement. *)
Theorem add_columns_plan_order : forall cat conn db pipe df,
  let new_cols := new_columns (fr_dtypes df) (table_columns db (target pipe)) in
  let alter := add_columns_statement cat conn pipe
                 (new_columns_types cat conn (fr_dtypes df) new_cols) in
  (pipe_exists pipe db = false -> get_add_columns_queries cat conn db pipe df = Some []) /\
  (pipe_exists pipe db = true -> new_cols = [] -> get_add_columns_queries cat conn db pipe df = Some []) /\
  (pipe_exists pipe db = true -> new_cols <> [] -> flavor conn <> "duckdb" ->
   get_add_columns_queries cat conn db pipe df = Some [alter]) /\
  (pipe_exists pipe db = true -> new_cols <> [] -> flavor conn = "duckdb" ->
   NoDup (PyDict.keys (indices pipe)) -> drop_is_hypertable cat conn pipe = false ->
   get_create_index_queries cat conn pipe <> None ->
   exists cq, get_create_index_queries cat conn pipe = Some cq /\
     get_add_columns_queries cat conn db pipe df
     = Some (map (fun kv => ("DROP INDEX " ++ sql_item_name cat (snd kv) (flavor conn))%string) (indices pipe)
             ++ [alter] ++ List.concat (PyDict.values cq))%list /\
     Forall (fun s => String.prefix "CREATE INDEX " s = true) (List.concat (PyDict.values cq))).
Proof.
  intros cat conn db pipe df new_cols alter.
  assert (Hq : pipe_exists pipe db = true ->
            get_add_columns_queries cat conn db pipe df
            = match new_cols with
              | [] => Some []
              | _ => if negb (String.eqb (flavor conn) "duckdb") then Some [alter] else
                     match get_create_index_queries cat conn pipe with
                     | None => None
                     | Some cq => Some (List.concat (PyDict.values (get_drop_index_queries cat conn db pipe))
                                        ++ [alter] ++ List.concat (PyDict.values cq))%list
                     end
              end).
  { intros Ex. unfold get_add_columns_queries. rewrite Ex. reflexivity. }
  clearbody alter new_cols.
  split; [|split; [|split]].
  - intros Ex. unfold get_add_columns_queries. rewrite Ex. reflexivity.
  - intros Ex ->. rewrite (Hq Ex). reflexivity.
  - intros Ex Hn Hf. rewrite (Hq Ex). apply String.eqb_neq in Hf. rewrite Hf.
    destruct new_cols; [contradiction|reflexivity].
  - intros Ex Hn Hf Hnd Hh Hc. rewrite (Hq Ex).
    assert (Hd : String.eqb (flavor conn) "duckdb" = true) by (rewrite Hf; reflexivity).
    destruct (get_create_index_queries cat conn pipe) as [cq|] eqn:Ecq; [|contradiction].
    exists cq. split; [reflexivity|]. split.
    + destruct new_cols; [contradiction|]. rewrite Hd. cbn [negb].
      rewrite drop_plan_plain, Ex, concat_plain_drop by assumption. reflexivity.
    + apply forall_concat_values. apply (create_plan_plain_values cat conn pipe cq);
        [rewrite Hf; reflexivity|rewrite Hf; reflexivity|exact Ecq].
Qed.

Lemma add_columns_plan_order_witness :
  get_add_columns_queries sample_catalog (sample_conn "duckdb" true) sample_db sample_pipe_no_dt
    sample_frame_wide
  = Some (["DROP INDEX ix_station"]
          ++ [add_columns_statement sample_catalog (sample_conn "duckdb" true) sample_pipe_no_dt
                (new_columns_types sample_catalog (sample_conn "duckdb" true)
                   (fr_dtypes sample_frame_wide)
                   (new_columns (fr_dtypes sample_frame_wide)
                      (table_columns sample_db (target sample_pipe_no_dt))))]
          ++ ["CREATE INDEX ix_station ON weather (station)"])%list.
Proof.
  destruct (add_columns_plan_order sample_catalog (sample_conn "duckdb" true) sample_db
              sample_pipe_no_dt sample_frame_wide) as (_ & _ & _ & H).
  destruct H as (cq & Hcq & Hres & _).
  - reflexivity.
  - vm_compute. intros Hn; discriminate Hn.
  - reflexivity.
  - vm_compute. repeat constructor; simpl; intuition discriminate.
  - reflexivity.
  - vm_compute. intros Hn; discriminate Hn.
  - rewrite Hres. vm_compute in Hcq. injection Hcq as <-. reflexivity.
Defined.
